(** * Speech sessions: the REST actions and page views over the session store

    A shallow embedding of [speech_sessions/models.py], [serializers.py],
    [api.py] and [views.py].  The table of sessions is a list of rows, a
    queryset is a filtered list of rows, a Python [float] is a binary64
    primitive float, a JSON object is a finite map keyed by strings. *)

(** The admin actions of [admin.py] and the setup script [setup.py] follow
    the page surface. *)

From Stdlib Require Import ZArith List Bool Lia String Ascii.
From Stdlib Require Import PrimFloat SpecFloat FloatOps FloatAxioms.
From Stdlib Require Import Sorted Permutation.
From stdpp Require Import gmap strings pretty.

Set Warnings "-inexact-float,-clear-no-such-hyp".
Local Open Scope Z_scope.

(** ** Python numbers *)

Module PyNum.

(** The exact value of an [int] as an unrounded binary number. *)
Definition Z2SF (z : Z) : spec_float :=
  match z with
  | Z0 => S754_zero false
  | Zpos p => S754_finite false p 0
  | Zneg p => S754_finite true p 0
  end.

(** [float(z)]: the nearest binary64 value. *)
Definition of_int (z : Z) : float :=
  SF2Prim (binary_normalize prec emax z 0 false).

(** [a / b] on two [int]s: the correctly rounded quotient.  Python raises
    [ZeroDivisionError] when [b] is [0]; every call site of the views guards
    its divisor to be positive first. *)
Definition int_truediv (a b : Z) : float :=
  SF2Prim (SFdiv prec emax (Z2SF a) (Z2SF b)).

(** A value that is an [int] or a [float] at run time. *)
Inductive number :=
  | Int (z : Z)
  | Float (x : float).

Definition to_float (n : number) : float :=
  match n with
  | Int z => of_int z
  | Float x => x
  end.

Definition sub (a b : number) : number :=
  match a, b with
  | Int x, Int y => Int (x - y)
  | _, _ => Float (PrimFloat.sub (to_float a) (to_float b))
  end.

Definition mul (a b : number) : number :=
  match a, b with
  | Int x, Int y => Int (x * y)
  | _, _ => Float (PrimFloat.mul (to_float a) (to_float b))
  end.

Definition div (a b : number) : number :=
  match a, b with
  | Int x, Int y => Float (int_truediv x y)
  | _, _ => Float (PrimFloat.div (to_float a) (to_float b))
  end.

(** [a > 0]. *)
Definition gt0 (a : number) : bool :=
  match a with
  | Int x => 0 <? x
  | Float x => PrimFloat.ltb 0%float x
  end.

(** Truth value of a number: anything but a zero. *)
Definition truthy (a : number) : bool :=
  match a with
  | Int x => negb (x =? 0)
  | Float x => negb (PrimFloat.eqb x 0%float)
  end.

(** [x or 0] on the result of an aggregate, which is [None] on no rows. *)
Definition or0 (o : option number) : number :=
  match o with
  | Some n => if truthy n then n else Int 0
  | None => Int 0
  end.

(** Nearest integer to [num / den], ties to even ([0 < den]). *)
Definition round_half_even (num den : Z) : Z :=
  let q := num / den in
  let r := num mod den in
  if 2 * r <? den then q
  else if den <? 2 * r then q + 1
  else if Z.even q then q else q + 1.

(** [round(x, 2)] on a [float]: the exact binary value is rounded to the
    closest multiple of 1/100 (ties to even), and that decimal is read back
    as the nearest binary64.  Infinities and NaN round to themselves. *)
Definition round2_float (x : float) : float :=
  match Prim2SF x with
  | S754_finite s m e =>
      if 0 <=? e then x
      else
        match round_half_even (Z.pos m * 100) (2 ^ (- e)) with
        | Zpos n =>
            SF2Prim (SFdiv prec emax (S754_finite s n 0) (S754_finite false 100 0))
        | _ => SF2Prim (S754_zero s)
        end
  | _ => x
  end.

(** [round(n, 2)]: an [int] stays the [int] it is. *)
Definition round2 (n : number) : number :=
  match n with
  | Int z => Int z
  | Float x => Float (round2_float x)
  end.

(** [max(0.0, x)] and [min(1.0, x)] as the builtins compute them: the first
    argument is kept unless a later one compares strictly beyond it. *)
Definition max0 (x : float) : float :=
  if PrimFloat.ltb 0%float x then x else 0%float.

Definition min1 (x : float) : float :=
  if PrimFloat.ltb x 1%float then x else 1%float.

End PyNum.

Import PyNum.

(** ** The data model ([models.py]) *)

(** Instants are counted in microseconds. *)
Definition timedelta_days (d : Z) : Z := d * 86400000000.

Record SpeechSession := {
  id : Z;
  user : Z;
  date : Z;
  duration : Z;
  filler_count : Z;
  pacing_analysis : string;
  status : string;
  audio_file : option string;
  transcription : string;
  confidence_score : option float;
  created_at : Z;
  updated_at : Z
}.

(** The table, in row order. *)
Abbreviation Store := (list SpeechSession).

(** [bool(session.audio_file)]: a file field is true when it has a name. *)
Definition has_audio (s : SpeechSession) : bool :=
  match audio_file s with
  | Some "" => false
  | Some _ => true
  | None => false
  end.

(** *** Querysets *)

Definition qs_filter (p : SpeechSession -> bool) (qs : Store) : Store :=
  List.filter p qs.

Definition exists_ (qs : Store) : bool :=
  match qs with
  | [] => false
  | _ :: _ => true
  end.

Definition count (qs : Store) : Z := Z.of_nat (length qs).

Fixpoint total (f : SpeechSession -> Z) (qs : Store) : Z :=
  match qs with
  | [] => 0
  | s :: qs' => f s + total f qs'
  end.

(** [aggregate(Sum(f))]: [None] over no rows. *)
Definition Sum (f : SpeechSession -> Z) (qs : Store) : option Z :=
  if exists_ qs then Some (total f qs) else None.

(** [aggregate(Avg(f))] of an integer column, as a float: the mean, correctly
    rounded; [None] over no rows. *)
Definition Avg (f : SpeechSession -> Z) (qs : Store) : option float :=
  if exists_ qs then Some (int_truediv (total f qs) (count qs)) else None.

Definition id_in (ids : list Z) (s : SpeechSession) : bool :=
  existsb (Z.eqb (id s)) ids.

(** ** The REST surface ([api.py]) *)

(** What the views read of [request.user]. *)
Record User := {
  pk : Z;
  is_authenticated : bool;
  is_2fa_enabled : bool;
  is_verified : bool;
  has_2fa_setup : bool
}.

(** A response: a payload under a status code, or an error message under one. *)
Inductive Response (A : Type) :=
  | Ok (code : Z) (data : A)
  | Error (code : Z) (error : string).

Arguments Ok {A} code data.
Arguments Error {A} code error.

Definition status_code {A} (r : Response A) : Z :=
  match r with
  | Ok code _ => code
  | Error code _ => code
  end.

Definition HTTP_200_OK : Z := 200.
Definition HTTP_204_NO_CONTENT : Z := 204.
Definition HTTP_400_BAD_REQUEST : Z := 400.
Definition HTTP_401_UNAUTHORIZED : Z := 401.
Definition HTTP_403_FORBIDDEN : Z := 403.
Definition HTTP_404_NOT_FOUND : Z := 404.

(** [IsOwnerPermission] ([api.py], lines 20-42).  The user model carries
    [is_2fa_enabled]; [is_verified] is the answer of [is_verified()]. *)
Module IsOwnerPermission.

Definition has_permission (u : User) : bool :=
  if negb (is_authenticated u) then false
  else if is_2fa_enabled u then is_verified u
  else true.

Definition has_object_permission (u : User) (obj : SpeechSession) : bool :=
  user obj =? pk u.

End IsOwnerPermission.

(** The permission classes of the viewset, checked before any handler runs:
    [IsAuthenticated], then [IsOwnerPermission]. *)
Definition check_permissions (u : User) : option (Z * string) :=
  if negb (is_authenticated u) then
    Some (HTTP_401_UNAUTHORIZED, "Authentication credentials were not provided.")
  else if IsOwnerPermission.has_permission u then None
  else Some (HTTP_403_FORBIDDEN, "You do not have permission to perform this action.").

(** [SpeechSessionViewSet.get_queryset] (lines 75-77). *)
Definition get_queryset (db : Store) (u : User) : Store :=
  qs_filter (fun s => user s =? pk u) db.

(** The payload of the analytics action.  The early return for an owner
    without sessions has no [improvement_metrics] key. *)
Record AnalyticsData := {
  total_sessions : Z;
  total_duration : Z;
  average_duration : number;
  total_filler_words : Z;
  average_filler_rate : number;
  sessions_by_status : gmap string Z;
  recent_sessions_count : Z;
  improvement_metrics : option (gmap string number)
}.

Definition is_analyzed (s : SpeechSession) : bool := String.eqb (status s) "analyzed".

(** [values('status').annotate(count=Count('id'))], read into a dict. *)
Fixpoint status_counts (qs : Store) : gmap string Z :=
  match qs with
  | [] => ∅
  | s :: qs' =>
      let m := status_counts qs' in
      <[status s := default 0 (m !! status s) + 1]> m
  end.

(** [x or 0] on an integer aggregate. *)
Definition or0_int (o : option Z) : Z :=
  match o with
  | Some z => z
  | None => 0
  end.

(** The filler rate of the analytics action, before rounding (lines 126-140). *)
Definition avg_filler_rate (sessions : Store) : number :=
  let analyzed_sessions := qs_filter is_analyzed sessions in
  let total_fillers := Sum filler_count analyzed_sessions in
  if exists_ analyzed_sessions then
    match Sum duration analyzed_sessions with
    | Some total_analyzed_duration =>
        if negb (total_analyzed_duration =? 0) && (0 <? total_analyzed_duration)
        then mul (div (Int (or0_int total_fillers)) (Int total_analyzed_duration)) (Int 60)
        else Int 0
    | None => Int 0
    end
  else Int 0.

(** The improvement metrics (lines 152-176): the last 30 days against the 30
    days before.  [thirty_days_ago] comes from the first reading of the
    clock and [sixty_days_ago] from a second one. *)
Definition improvement (sessions : Store) (thirty_days_ago sixty_days_ago : Z)
  : gmap string number :=
  if 1 <? count sessions then
    let recent_sessions := qs_filter (fun s => thirty_days_ago <=? date s) sessions in
    let previous_sessions :=
      qs_filter (fun s => (sixty_days_ago <=? date s) && (date s <? thirty_days_ago))
                sessions in
    if exists_ recent_sessions && exists_ previous_sessions then
      let recent_avg_fillers := or0 (option_map Float (Avg filler_count recent_sessions)) in
      let previous_avg_fillers := or0 (option_map Float (Avg filler_count previous_sessions)) in
      if gt0 previous_avg_fillers then
        let filler_improvement :=
          mul (div (sub previous_avg_fillers recent_avg_fillers) previous_avg_fillers)
              (Int 100) in
        <["filler_improvement_percent" := round2 filler_improvement]> ∅
      else ∅
    else ∅
  else ∅.

(** [SpeechSessionViewSet.analytics] (lines 93-189); [now1] and [now2] are
    the two readings of [timezone.now()]. *)
Definition analytics (db : Store) (u : User) (now1 now2 : Z)
  : Response AnalyticsData :=
  let sessions := get_queryset db u in
  if count sessions =? 0 then
    Ok HTTP_200_OK
       {| total_sessions := 0;
          total_duration := 0;
          average_duration := Int 0;
          total_filler_words := 0;
          average_filler_rate := Int 0;
          sessions_by_status := ∅;
          recent_sessions_count := 0;
          improvement_metrics := None |}
  else
    let analyzed_sessions := qs_filter is_analyzed sessions in
    let thirty_days_ago := now1 - timedelta_days 30 in
    let sixty_days_ago := now2 - timedelta_days 60 in
    Ok HTTP_200_OK
       {| total_sessions := count sessions;
          total_duration := or0_int (Sum duration sessions);
          average_duration := round2 (or0 (option_map Float (Avg duration sessions)));
          total_filler_words := or0_int (Sum filler_count analyzed_sessions);
          average_filler_rate := round2 (avg_filler_rate sessions);
          sessions_by_status := status_counts sessions;
          recent_sessions_count :=
            count (qs_filter (fun s => thirty_days_ago <=? date s) sessions);
          improvement_metrics :=
            Some (improvement sessions thirty_days_ago sixty_days_ago) |}.

(** *** Bulk update *)

(** A JSON value of the request body, as far as the columns of the table
    take one. *)
Inductive json :=
  | JNull
  | JInt (z : Z)
  | JFloat (x : float)
  | JStr (s : string).

Definition allowed_fields : gset string :=
  {["status"; "pacing_analysis"; "filler_count"; "confidence_score"]}.

(** The keyword arguments of [QuerySet.update], each prepared for its
    column.  A value of the column's own JSON type is stored as it is (an
    integer is also taken by the float column); [null] is taken by the
    nullable [confidence_score] only.  The coercions Django applies to a
    value of another JSON type are outside this model: [prepare] gives
    [None] there, and the action reports a server error. *)
Record Assignment := {
  set_status : option string;
  set_pacing_analysis : option string;
  set_filler_count : option Z;
  set_confidence_score : option (option float)
}.

Definition prep_text (v : json) : option string :=
  match v with
  | JStr s => Some s
  | _ => None
  end.

Definition prep_integer (v : json) : option Z :=
  match v with
  | JInt z => Some z
  | _ => None
  end.

Definition prep_nullable_float (v : json) : option (option float) :=
  match v with
  | JNull => Some None
  | JFloat x => Some (Some x)
  | JInt z => Some (Some (of_int z))
  | JStr _ => None
  end.

(** One keyword argument: absent, or present and prepared. *)
Definition prep_field {A} (prep : json -> option A) (o : option json)
  : option (option A) :=
  match o with
  | None => Some None
  | Some v => option_map Some (prep v)
  end.

Definition prepare (updates : gmap string json) : option Assignment :=
  st ← prep_field prep_text (updates !! "status");
  pa ← prep_field prep_text (updates !! "pacing_analysis");
  fc ← prep_field prep_integer (updates !! "filler_count");
  cs ← prep_field prep_nullable_float (updates !! "confidence_score");
  Some {| set_status := st;
          set_pacing_analysis := pa;
          set_filler_count := fc;
          set_confidence_score := cs |}.

(** The row after the SQL [UPDATE]: the assigned columns change, every other
    column, [updated_at] among them, keeps its value ([auto_now] acts in
    [Model.save] only). *)
Definition assign (a : Assignment) (s : SpeechSession) : SpeechSession :=
  {| id := id s;
     user := user s;
     date := date s;
     duration := duration s;
     filler_count := default (filler_count s) (set_filler_count a);
     pacing_analysis := default (pacing_analysis s) (set_pacing_analysis a);
     status := default (status s) (set_status a);
     audio_file := audio_file s;
     transcription := transcription s;
     confidence_score := default (confidence_score s) (set_confidence_score a);
     created_at := created_at s;
     updated_at := updated_at s |}.

(** [QuerySet.update]: the rows the queryset selects are rewritten in place;
    the result is the number of rows matched. *)
Definition QuerySet_update (sel : SpeechSession -> bool) (a : Assignment) (db : Store)
  : Z * Store :=
  (count (qs_filter sel db), map (fun s => if sel s then assign a s else s) db).

Record BulkUpdated := {
  success : bool;
  updated_count : Z;
  message : string
}.

Definition bulk_updated (n : Z) : BulkUpdated :=
  {| success := true;
     updated_count := n;
     message := pretty n +:+ " session(s) updated successfully" |}.

Definition HTTP_500_INTERNAL_SERVER_ERROR : Z := 500.

Definition is_nil {A} (l : list A) : bool :=
  match l with
  | [] => true
  | _ :: _ => false
  end.

(** [SpeechSessionViewSet.bulk_update] (lines 191-239).  A key missing from
    the body is the empty list, or the empty map; the 400 for invalid fields
    names them in its message. *)
Definition bulk_update (db : Store) (u : User)
    (session_ids : list Z) (updates : gmap string json)
  : Response BulkUpdated * Store :=
  if is_nil session_ids || bool_decide (updates = ∅) then
    (Error HTTP_400_BAD_REQUEST "Both session_ids and updates are required", db)
  else
    let sessions := qs_filter (id_in session_ids) (get_queryset db u) in
    if negb (exists_ sessions) then
      (Error HTTP_404_NOT_FOUND "No valid sessions found", db)
    else
      let invalid_fields := dom updates ∖ allowed_fields in
      if negb (bool_decide (invalid_fields = ∅)) then
        (Error HTTP_400_BAD_REQUEST "Invalid fields for bulk update", db)
      else
        match prepare updates with
        | None => (Error HTTP_500_INTERNAL_SERVER_ERROR "update", db)
        | Some a =>
            let '(n, db') :=
              QuerySet_update (fun s => (user s =? pk u) && id_in session_ids s) a db in
            (Ok HTTP_200_OK (bulk_updated n), db')
        end.

(** *** Detail routes *)

(** [Model.save] on a stored instance: the row with its primary key takes
    every field of the instance, and [auto_now] stamps [updated_at]. *)
Definition stamp (now : Z) (s : SpeechSession) : SpeechSession :=
  {| id := id s;
     user := user s;
     date := date s;
     duration := duration s;
     filler_count := filler_count s;
     pacing_analysis := pacing_analysis s;
     status := status s;
     audio_file := audio_file s;
     transcription := transcription s;
     confidence_score := confidence_score s;
     created_at := created_at s;
     updated_at := now |}.

Definition save (obj : SpeechSession) (now : Z) (db : Store) : Store :=
  map (fun s => if id s =? id obj then stamp now obj else s) db.

Definition delete (obj : SpeechSession) (db : Store) : Store :=
  qs_filter (fun s => negb (id s =? id obj)) db.

(** [get_object]: the row is looked up by primary key in the owner's
    queryset, narrowed by the filter backends of the request ([flt]); the
    object permission is checked on the row found. *)
Inductive Lookup :=
  | Found (obj : SpeechSession)
  | NotFound
  | Denied.

Definition get_object (db : Store) (u : User) (flt : SpeechSession -> bool) (key : Z)
  : Lookup :=
  match find (fun s => id s =? key) (qs_filter flt (get_queryset db u)) with
  | None => NotFound
  | Some obj =>
      if IsOwnerPermission.has_object_permission u obj then Found obj else Denied
  end.

Definition lookup_error {A} (l : Lookup) : Response A :=
  match l with
  | Denied => Error HTTP_403_FORBIDDEN "You do not have permission to perform this action."
  | _ => Error HTTP_404_NOT_FOUND "Not found."
  end.

(** The detail routes the viewset inherits: retrieve, destroy and, below the
    serializer, update. *)
Definition retrieve (db : Store) (u : User) (flt : SpeechSession -> bool) (key : Z)
  : Response SpeechSession :=
  match get_object db u flt key with
  | Found obj => Ok HTTP_200_OK obj
  | l => lookup_error l
  end.

Definition destroy (db : Store) (u : User) (flt : SpeechSession -> bool) (key : Z)
  : Response unit * Store :=
  match get_object db u flt key with
  | Found obj => (Ok HTTP_204_NO_CONTENT tt, delete obj db)
  | l => (lookup_error l, db)
  end.

(** *** The serializer ([serializers.py]) *)

(** [SpeechSessionSerializer] (lines 8-73): [id], [user], [date],
    [created_at] and [updated_at] are read-only. *)
Module SpeechSessionSerializer.

(** The writable fields of a request body, each present or not. *)
Record Data := {
  d_duration : option Z;
  d_filler_count : option Z;
  d_pacing_analysis : option string;
  d_status : option string;
  d_audio_file : option (option string);
  d_transcription : option string;
  d_confidence_score : option (option float)
}.

Definition STATUS_CHOICES : list string := ["pending"; "analyzed"; "archived"].

Definition validate_duration (value : Z) : option Z :=
  if value <=? 0 then None else Some value.

Definition validate_filler_count (value : Z) : option Z :=
  if value <? 0 then None else Some value.

Definition validate_confidence_score (value : option float) : option (option float) :=
  match value with
  | Some x =>
      if PrimFloat.ltb x 0%float || PrimFloat.ltb 1%float x then None else Some value
  | None => Some None
  end.

Definition validate_status (value : string) : option string :=
  if existsb (String.eqb value) STATUS_CHOICES then Some value else None.

(** A field that is absent passes; one that is present must validate. *)
Definition run {A} (validate : A -> option A) (o : option A) : option (option A) :=
  match o with
  | None => Some None
  | Some v => option_map Some (validate v)
  end.

(** [is_valid]: the validated data, or [None] for a 400.  A full update
    ([partial] false) requires [duration]. *)
Definition is_valid (partial : bool) (d : Data) : option Data :=
  if negb partial && negb (bool_decide (is_Some (d_duration d))) then None
  else
    du ← run validate_duration (d_duration d);
    fc ← run validate_filler_count (d_filler_count d);
    st ← run validate_status (d_status d);
    cs ← run validate_confidence_score (d_confidence_score d);
    Some {| d_duration := du;
            d_filler_count := fc;
            d_pacing_analysis := d_pacing_analysis d;
            d_status := st;
            d_audio_file := d_audio_file d;
            d_transcription := d_transcription d;
            d_confidence_score := cs |}.

(** [update]: each validated attribute is set on the instance. *)
Definition set_attrs (d : Data) (s : SpeechSession) : SpeechSession :=
  {| id := id s;
     user := user s;
     date := date s;
     duration := default (duration s) (d_duration d);
     filler_count := default (filler_count s) (d_filler_count d);
     pacing_analysis := default (pacing_analysis s) (d_pacing_analysis d);
     status := default (status s) (d_status d);
     audio_file := default (audio_file s) (d_audio_file d);
     transcription := default (transcription s) (d_transcription d);
     confidence_score := default (confidence_score s) (d_confidence_score d);
     created_at := created_at s;
     updated_at := updated_at s |}.

End SpeechSessionSerializer.

(** PUT ([partial] false) and PATCH ([partial] true).  The body of the 400
    lists the errors of the fields. *)
Definition update (db : Store) (u : User) (flt : SpeechSession -> bool) (key : Z)
    (partial : bool) (data : SpeechSessionSerializer.Data) (now : Z)
  : Response SpeechSession * Store :=
  match get_object db u flt key with
  | Found obj =>
      match SpeechSessionSerializer.is_valid partial data with
      | None => (Error HTTP_400_BAD_REQUEST "invalid", db)
      | Some validated =>
          let obj' := SpeechSessionSerializer.set_attrs validated obj in
          (Ok HTTP_200_OK (stamp now obj'), save obj' now db)
      end
  | l => (lookup_error l, db)
  end.

(** *** Re-analysis *)

Section Reanalyze.

(** [hash] of a [str] (salted per process) and
    [strftime('%Y-%m-%d %H:%M')] of an instant are the interpreter's. *)
Variable hash : string -> Z.
Variable strftime : Z -> string.

Definition offsets : list Z := [-2; -1; 0; 1; 2].

(** The assignments of [SpeechSessionViewSet.reanalyze] (lines 257-261). *)
Definition reanalyzed (session : SpeechSession) (now : Z) : SpeechSession :=
  {| id := id session;
     user := user session;
     date := date session;
     duration := duration session;
     filler_count :=
       Z.max 0 (filler_count session
                + nth (Z.to_nat (hash (pretty (id session)) mod 5)) offsets 0);
     pacing_analysis :=
       ("Re-analyzed on " +:+ strftime now +:+ ": ") +:+ pacing_analysis session;
     status := "analyzed";
     audio_file := audio_file session;
     transcription := transcription session;
     confidence_score :=
       Some (min1 (max0 (PrimFloat.add
                           (match confidence_score session with
                            | Some x => if PrimFloat.eqb x 0%float then 0.8%float else x
                            | None => 0.8%float
                            end)
                           0.05%float)));
     created_at := created_at session;
     updated_at := updated_at session |}.

(** [SpeechSessionViewSet.reanalyze] (lines 241-269); [now] is the clock
    read for the note, [now'] the one [save] stamps. *)
Definition reanalyze (db : Store) (u : User) (flt : SpeechSession -> bool) (key : Z)
    (now now' : Z)
  : Response SpeechSession * Store :=
  match get_object db u flt key with
  | Found session =>
      if negb (has_audio session) then
        (Error HTTP_400_BAD_REQUEST "No audio file available for analysis", db)
      else
        let session' := reanalyzed session now in
        (Ok HTTP_200_OK (stamp now' session'), save session' now' db)
  | l => (lookup_error l, db)
  end.

End Reanalyze.

(** The handlers behind the permission gate of the viewset. *)
Definition dispatch {A} (u : User) (db : Store) (handler : Response A * Store)
  : Response A * Store :=
  match check_permissions u with
  | Some (code, detail) => (Error code detail, db)
  | None => handler
  end.

(** *** Derived fields of the model ([models.py], lines 88-100) *)

(** [SpeechSession.filler_rate]: filler words per minute. *)
Definition filler_rate (s : SpeechSession) : number :=
  if duration s =? 0 then Int 0
  else mul (div (Int (filler_count s)) (Int (duration s))) (Int 60).

(** [f"{n:02d}"]: the decimal text, with a leading zero when it is one
    character long. *)
Definition zero_pad2 (n : Z) : string :=
  let t := pretty n in
  if (String.length t <? 2)%nat then "0" +:+ t else t.

(** [SpeechSession.duration_minutes]: minutes and seconds as [m:ss]. *)
Definition duration_minutes (s : SpeechSession) : string :=
  let minutes := duration s / 60 in
  let seconds := duration s mod 60 in
  pretty minutes +:+ ":" +:+ zero_pad2 seconds.

(** *** Creation ([serializers.py], lines 76-116; [api.py], lines 89-91) *)

(** The instants an insert reads: one for each of [date], [created_at] and
    [updated_at]. *)
Record InsertClock := {
  now_date : Z;
  now_created_at : Z;
  now_updated_at : Z
}.

(** The placeholder analysis both creation paths write. *)
Definition simulated (session : SpeechSession) : SpeechSession :=
  {| id := id session;
     user := user session;
     date := date session;
     duration := duration session;
     filler_count := 5;
     pacing_analysis :=
       "Simulated analysis: Good pacing with occasional slow segments. Average speaking rate detected.";
     status := "analyzed";
     audio_file := audio_file session;
     transcription := transcription session;
     confidence_score := Some 0.85%float;
     created_at := created_at session;
     updated_at := updated_at session |}.

Module SpeechSessionCreateSerializer.

(** The fields of the serializer, each as its field cleans it;
    [d_audio_file] is the name the storage gives the uploaded file. *)
Record Data := {
  d_duration : option Z;
  d_audio_file : option string;
  d_transcription : option string
}.

Definition validate_duration (value : Z) : option Z :=
  if value <=? 0 then None else Some value.

(** [is_valid]: [duration] is required and validated. *)
Definition is_valid (d : Data) : option Z :=
  v ← d_duration d; validate_duration v.

(** [SpeechSession.objects.create] on the validated data: the row the database
    inserts under the key [new_id] it assigns, with the defaults of the
    model for the columns not given. *)
Definition objects_create (new_id : Z) (owner : Z) (dur : Z) (d : Data) (t : InsertClock)
  : SpeechSession :=
  {| id := new_id;
     user := owner;
     date := now_date t;
     duration := dur;
     filler_count := 0;
     pacing_analysis := "";
     status := "pending";
     audio_file := d_audio_file d;
     transcription := default "" (d_transcription d);
     confidence_score := None;
     created_at := now_created_at t;
     updated_at := now_updated_at t |}.

(** [create]: the insert and, for a session with audio, the simulated
    analysis saved at [now']. *)
Definition create (db : Store) (u : User) (dur : Z) (d : Data)
    (new_id : Z) (t : InsertClock) (now' : Z)
  : SpeechSession * Store :=
  let session := objects_create new_id (pk u) dur d t in
  let db1 := db ++ [session] in
  if has_audio session then
    (stamp now' (simulated session), save (simulated session) now' db1)
  else (session, db1).

End SpeechSessionCreateSerializer.

Definition HTTP_201_CREATED : Z := 201.

(** POST on the collection: the serializer validates, [perform_create]
    saves with the current user.  The payload is the instance, of which the
    body shows the fields of the serializer. *)
Definition create (db : Store) (u : User) (data : SpeechSessionCreateSerializer.Data)
    (new_id : Z) (t : InsertClock) (now' : Z)
  : Response SpeechSession * Store :=
  match SpeechSessionCreateSerializer.is_valid data with
  | None => (Error HTTP_400_BAD_REQUEST "invalid", db)
  | Some dur =>
      let '(session, db') :=
        SpeechSessionCreateSerializer.create db u dur data new_id t now' in
      (Ok HTTP_201_CREATED session, db')
  end.

(** ** The page surface ([views.py]) *)

Module Views.

(** What a page view answers. *)
Inductive Page (A : Type) :=
  | Render (template : string) (context : A)
  | Redirect (to : string)
  | Http404
  | HttpResponseNotAllowed
  | JsonResponse (code : Z) (body : string).

Arguments Render {A} template context.
Arguments Redirect {A} to.
Arguments Http404 {A}.
Arguments HttpResponseNotAllowed {A}.
Arguments JsonResponse {A} code body.

Inductive Method := GET | POST.

(** [login_required] outside [require_2fa_if_enabled]: where the request
    is sent instead of the view, if anywhere. *)
Definition decorators (u : User) : option string :=
  if negb (is_authenticated u) then Some "login"
  else if is_2fa_enabled u && negb (has_2fa_setup u) then Some "coach:setup_2fa"
  else None.

Definition decorated {A} (u : User) (db : Store) (view : Page A * Store)
  : Page A * Store :=
  match decorators u with
  | Some to => (Redirect to, db)
  | None => view
  end.

(** [get_object_or_404(SpeechSession, pk=pk, user=request.user)]. *)
Definition get_object_or_404 (db : Store) (key : Z) (u : User) : option SpeechSession :=
  find (fun s => (id s =? key) && (user s =? pk u)) db.

(** *** Case-insensitive containment *)

(** [icontains] as the database folds case, on the letters A to Z. *)
Definition lower_ascii (c : ascii) : ascii :=
  let n := nat_of_ascii c in
  if (65 <=? n)%nat && (n <=? 90)%nat then ascii_of_nat (n + 32) else c.

Fixpoint lower (s : string) : string :=
  match s with
  | EmptyString => EmptyString
  | String c s' => String (lower_ascii c) (lower s')
  end.

Fixpoint contains (needle hay : string) : bool :=
  String.prefix needle hay
  || match hay with
     | EmptyString => false
     | String _ hay' => contains needle hay'
     end.

Definition icontains (hay needle : string) : bool :=
  contains (lower needle) (lower hay).

(** *** Ordering and pages *)

(** [order_by('-date')]: latest first; rows of one instant keep their order. *)
Fixpoint insert_by_date (s : SpeechSession) (l : Store) : Store :=
  match l with
  | [] => [s]
  | x :: l' => if date s <? date x then x :: insert_by_date s l' else s :: l
  end.

Fixpoint order_by_date_desc (qs : Store) : Store :=
  match qs with
  | [] => []
  | s :: qs' => insert_by_date s (order_by_date_desc qs')
  end.

Module Paginator.

Definition num_pages (per_page : Z) (n : Z) : Z :=
  Z.max 1 ((n + per_page - 1) / per_page).

(** [get_page]: a missing or non-integer number ([None]) is page 1, a number
    out of range the last page. *)
Definition valid_number (per_page : Z) (n : Z) (number : option Z) : Z :=
  match number with
  | None => 1
  | Some k => if (k <? 1) || (num_pages per_page n <? k) then num_pages per_page n else k
  end.

Definition page {A} (per_page : Z) (object_list : list A) (number : Z) : list A :=
  let bottom := (number - 1) * per_page in
  firstn (Z.to_nat per_page) (skipn (Z.to_nat bottom) object_list).

Definition get_page {A} (per_page : Z) (object_list : list A) (number : option Z)
  : list A :=
  page per_page object_list
       (valid_number per_page (Z.of_nat (length object_list)) number).

End Paginator.

(** *** The session list *)

Section SessionList.

(** The calendar day of an instant in the current time zone. *)
Variable local_date : Z -> Z.

(** The cleaned data of the filter form. *)
Record FilterData := {
  f_status : option string;
  f_date_from : option Z;
  f_date_to : option Z;
  f_search : option string
}.

(** Truth value of a cleaned text field: present and not empty. *)
Definition given (o : option string) : option string :=
  match o with
  | Some "" => None
  | _ => o
  end.

Definition apply_filters (cleaned : FilterData) (sessions : Store) : Store :=
  let sessions :=
    match given (f_status cleaned) with
    | Some st => qs_filter (fun s => String.eqb (status s) st) sessions
    | None => sessions
    end in
  let sessions :=
    match f_date_from cleaned with
    | Some date_from => qs_filter (fun s => date_from <=? local_date (date s)) sessions
    | None => sessions
    end in
  let sessions :=
    match f_date_to cleaned with
    | Some date_to => qs_filter (fun s => local_date (date s) <=? date_to) sessions
    | None => sessions
    end in
  match given (f_search cleaned) with
  | Some search =>
      qs_filter (fun s => icontains (transcription s) search
                          || icontains (pacing_analysis s) search) sessions
  | None => sessions
  end.

(** The queryset [session_list_view] hands to the paginator; [filter_form]
    is the cleaned data of [SpeechSessionFilterForm] ([forms.py]), [None]
    when the form does not validate. *)
Definition listed (db : Store) (u : User) (filter_form : option FilterData) : Store :=
  let sessions := qs_filter (fun s => user s =? pk u) db in
  let sessions :=
    match filter_form with
    | Some cleaned => apply_filters cleaned sessions
    | None => sessions
    end in
  order_by_date_desc sessions.

Record ListContext := {
  page_obj : Store;
  ctx_total_sessions : Z;
  ctx_pending_sessions : Z;
  ctx_analyzed_sessions : Z
}.

Definition session_list_view (db : Store) (u : User)
    (filter_form : option FilterData) (page_number : option Z)
  : Page ListContext * Store :=
  decorated u db
    (Render "speech_sessions/session_list.html"
       {| page_obj := Paginator.get_page 10 (listed db u filter_form) page_number;
          ctx_total_sessions := count (qs_filter (fun s => user s =? pk u) db);
          ctx_pending_sessions :=
            count (qs_filter (fun s => (user s =? pk u) && String.eqb (status s) "pending") db);
          ctx_analyzed_sessions :=
            count (qs_filter (fun s => (user s =? pk u) && String.eqb (status s) "analyzed") db)
       |},
     db).

End SessionList.

(** *** Detail, update, delete *)

Definition session_detail_view (db : Store) (u : User) (key : Z)
  : Page SpeechSession * Store :=
  decorated u db
    (match get_object_or_404 db key u with
     | None => (Http404, db)
     | Some session => (Render "speech_sessions/session_detail.html" session, db)
     end).

Section SessionUpdate.

(** [SpeechSessionUpdateForm] is declared in [forms.py]: the posted data is
    of a type of its own, and the form bound to an instance gives the
    instance to save, or nothing when it does not validate. *)
Variable PostData : Type.
Variable SpeechSessionUpdateForm : PostData -> SpeechSession -> option SpeechSession.

Definition session_update_view (db : Store) (u : User) (key : Z)
    (method : Method) (post : PostData) (now : Z)
  : Page SpeechSession * Store :=
  decorated u db
    (match get_object_or_404 db key u with
     | None => (Http404, db)
     | Some session =>
         match method with
         | POST =>
             match SpeechSessionUpdateForm post session with
             | Some session' =>
                 (Redirect "speech_sessions:session_detail", save session' now db)
             | None => (Render "speech_sessions/session_form.html" session, db)
             end
         | GET => (Render "speech_sessions/session_form.html" session, db)
         end
     end).

End SessionUpdate.

Definition session_delete_view (db : Store) (u : User) (key : Z) (method : Method)
  : Page SpeechSession * Store :=
  decorated u db
    (match get_object_or_404 db key u with
     | None => (Http404, db)
     | Some session =>
         match method with
         | POST => (Redirect "speech_sessions:session_list", delete session db)
         | GET => (Render "speech_sessions/session_confirm_delete.html" session, db)
         end
     end).

(** *** Bulk actions *)

Definition status_only (st : string) : Assignment :=
  {| set_status := Some st;
     set_pacing_analysis := None;
     set_filler_count := None;
     set_confidence_score := None |}.

(** [session_bulk_action_view].  The body is the decoded JSON, [None] when
    it does not decode; a missing action is the empty string. *)
Definition session_bulk_action_view (db : Store) (u : User)
    (method : Method) (body : option (string * list Z))
  : Page unit * Store :=
  decorated u db
    (match method, body with
     | GET, _ => (HttpResponseNotAllowed, db)
     | POST, None => (JsonResponse 400 "Invalid JSON data", db)
     | POST, Some (action, session_ids) =>
         if String.eqb action "" || is_nil session_ids then
           (JsonResponse 400 "Missing action or session IDs", db)
         else
           let sel := fun s => id_in session_ids s && (user s =? pk u) in
           let n := count (qs_filter sel db) in
           if n =? 0 then
             (JsonResponse 404 "No valid sessions found", db)
           else if String.eqb action "delete" then
             (JsonResponse 200 (pretty n +:+ " session(s) deleted successfully"),
              qs_filter (fun s => negb (sel s)) db)
           else if String.eqb action "archive" then
             (JsonResponse 200 (pretty n +:+ " session(s) archived successfully"),
              snd (QuerySet_update sel (status_only "archived") db))
           else if String.eqb action "mark_analyzed" then
             (JsonResponse 200 (pretty n +:+ " session(s) marked as analyzed"),
              snd (QuerySet_update sel (status_only "analyzed") db))
           else (JsonResponse 400 "Invalid action", db)
     end).

(** *** Creation *)

Section SessionCreate.

(** [SpeechSessionCreateForm] is declared in [forms.py]: the posted data
    gives the unsaved instance of [form.save(commit=False)], or nothing when
    the form does not validate. *)
Variable PostData : Type.
Variable SpeechSessionCreateForm : PostData -> option SpeechSession.




End SessionCreate.

(** *** Analytics page *)

Record AnalyticsContext := {
  a_total_sessions : Z;
  a_total_duration : Z;
  a_avg_duration : number;
  a_total_fillers : Z;
  a_avg_fillers : number;
  a_recent_sessions_count : Z;
  a_analyzed_sessions_count : Z;
  a_pending_sessions_count : Z;
  a_archived_sessions_count : Z
}.

Definition session_analytics_view (db : Store) (u : User) (now : Z)
  : Page AnalyticsContext * Store :=
  decorated u db
    (let sessions := qs_filter (fun s => user s =? pk u) db in
     let total_sessions := count sessions in
     let total_duration := total duration sessions in
     let analyzed_sessions := qs_filter (fun s => String.eqb (status s) "analyzed") sessions in
     let total_fillers := total filler_count analyzed_sessions in
     let thirty_days_ago := now - timedelta_days 30 in
     (Render "speech_sessions/session_analytics.html"
        {| a_total_sessions := total_sessions;
           a_total_duration := total_duration;
           a_avg_duration :=
             if 0 <? total_sessions then div (Int total_duration) (Int total_sessions)
             else Int 0;
           a_total_fillers := total_fillers;
           a_avg_fillers :=
             if 0 <? count analyzed_sessions
             then div (Int total_fillers) (Int (count analyzed_sessions))
             else Int 0;
           a_recent_sessions_count :=
             count (qs_filter (fun s => thirty_days_ago <=? date s) sessions);
           a_analyzed_sessions_count := count analyzed_sessions;
           a_pending_sessions_count :=
             count (qs_filter (fun s => String.eqb (status s) "pending") sessions);
           a_archived_sessions_count :=
             count (qs_filter (fun s => String.eqb (status s) "archived") sessions) |},
      db)).

End Views.

(** ** The admin actions ([admin.py], lines 171-205) *)

Module SpeechSessionAdmin.

(** The queryset of an action is what the administrator selected, of any
    owner: a test on the rows.  The result is the message shown. *)
Definition mark_as (st what : string) (queryset : SpeechSession -> bool) (db : Store)
  : string * Store :=
  let '(updated, db') := QuerySet_update queryset (Views.status_only st) db in
  (pretty updated +:+ " session(s) marked as " +:+ what +:+ ".", db').

Definition mark_as_analyzed := mark_as "analyzed" "analyzed".
Definition mark_as_pending := mark_as "pending" "pending".
Definition mark_as_archived := mark_as "archived" "archived".

Definition export_sessions (queryset : SpeechSession -> bool) (db : Store)
  : string * Store :=
  ("Export functionality for " +:+ pretty (count (qs_filter queryset db))
   +:+ " session(s) would be implemented here.", db).

End SpeechSessionAdmin.

(** ** The setup script ([setup.py]) *)

Module Setup.

(** What the script finds on the machine: whether a shell command succeeds,
    whether [venv] exists, whether [django.setup()] and the query for a
    superuser raise, whether a superuser exists, whether [createsuperuser]
    raises, and whether the interpreter is 3.8 or later. *)
Record World := {
  command_ok : string -> bool;
  venv_exists : bool;
  django_setup_ok : bool;
  superuser_query_ok : bool;
  superuser_exists : bool;
  createsuperuser_ok : bool;
  python_3_8 : bool
}.

(** How a function of the script ends: it returns a boolean, or an
    exception leaves it. *)
Inductive Outcome :=
  | Returned (ok : bool)
  | Raised.

(** A step: from the commands run so far to an outcome and the commands run
    after it. *)
Definition Step := list string -> Outcome * list string.

(** [run_command]: the command is run; a non-zero exit status is [False]. *)
Definition run_command (w : World) (command : string) : Step :=
  fun log => (Returned (command_ok w command), log ++ [command]).

(** [if not step(): return False], then the rest. *)
Definition and_then (step rest : Step) : Step :=
  fun log =>
    match step log with
    | (Returned true, log') => rest log'
    | (Returned false, log') => (Returned false, log')
    | (Raised, log') => (Raised, log')
    end.

Definition ret (ok : bool) : Step := fun log => (Returned ok, log).

Definition setup_environment (w : World) : Step :=
  and_then
    (if negb (venv_exists w) then run_command w "python -m venv venv" else ret true)
    (and_then (run_command w "pip install -r requirements.txt") (ret true)).

Definition setup_database (w : World) : Step :=
  if django_setup_ok w then
    and_then (run_command w "python manage.py makemigrations")
      (and_then (run_command w "python manage.py migrate") (ret true))
  else fun log => (Raised, log).

Definition create_superuser (w : World) : Step :=
  if superuser_query_ok w then
    if superuser_exists w then ret true
    else ret (createsuperuser_ok w)
  else fun log => (Raised, log).

Definition download_spacy_model (w : World) : Step :=
  and_then (run_command w "python -m spacy download en_core_web_sm") (ret true).

Definition steps (w : World) : list Step :=
  [setup_environment w; setup_database w; create_superuser w; download_spacy_model w].

(** How the process ends: the exit status of [sys.exit], 0 at the end of
    [main], or a traceback. *)
Inductive Exit :=
  | Status (code : Z)
  | Traceback.

(** The loop of [main] over the steps. *)
Fixpoint run_steps (l : list Step) (log : list string) : Exit * list string :=
  match l with
  | [] => (Status 0, log)
  | step :: l' =>
      match step log with
      | (Returned true, log') => run_steps l' log'
      | (Returned false, log') => (Status 1, log')
      | (Raised, log') => (Traceback, log')
      end
  end.

Definition main (w : World) : Exit * list string :=
  if negb (python_3_8 w) then (Status 1, [])
  else run_steps (steps w) [].

End Setup.

(** ** The requests that write *)

Module Surface.

(** A writing request of either surface, with what it carries and the
    instants (and, for a creation, the key) it is served with. *)
Inductive Write :=
  | Update (flt : SpeechSession -> bool) (key : Z) (partial : bool)
           (data : SpeechSessionSerializer.Data) (now : Z)
  | Destroy (flt : SpeechSession -> bool) (key : Z)
  | Reanalyze (flt : SpeechSession -> bool) (key : Z) (now now' : Z)
  | BulkUpdate (session_ids : list Z) (updates : gmap string json)
  | Create (data : SpeechSessionCreateSerializer.Data) (new_id : Z)
           (t : InsertClock) (now' : Z)
  | PageDelete (key : Z) (method : Views.Method)
  | PageBulkAction (method : Views.Method) (body : option (string * list Z)).

Section Perform.

Variable hash : string -> Z.
Variable strftime : Z -> string.

(** The table after the request of an actor. *)
Definition perform (w : Write) (u : User) (db : Store) : Store :=
  match w with
  | Update flt key partial data now =>
      snd (dispatch u db (update db u flt key partial data now))
  | Destroy flt key => snd (dispatch u db (destroy db u flt key))
  | Reanalyze flt key now now' =>
      snd (dispatch u db (reanalyze hash strftime db u flt key now now'))
  | BulkUpdate session_ids updates =>
      snd (dispatch u db (bulk_update db u session_ids updates))
  | Create data new_id t now' => snd (dispatch u db (create db u data new_id t now'))
  | PageDelete key method => snd (Views.session_delete_view db u key method)
  | PageBulkAction method body => snd (Views.session_bulk_action_view db u method body)
  end.

(** The key the database assigns to a new row is not in use. *)
Definition fresh (w : Write) (db : Store) : Prop :=
  match w with
  | Create _ new_id _ _ => ~ In new_id (map id db)
  | _ => True
  end.

(** The table after a sequence of requests, each with its actor. *)
Fixpoint run (ws : list (User * Write)) (db : Store) : Store :=
  match ws with
  | [] => db
  | (u, w) :: ws' => run ws' (perform w u db)
  end.

(** Every creation of the sequence is served with a key not in use. *)
Fixpoint admissible (ws : list (User * Write)) (db : Store) : Prop :=
  match ws with
  | [] => True
  | (u, w) :: ws' => fresh w db /\ admissible ws' (perform w u db)
  end.

End Perform.

End Surface.

(** ** The statements of the specification, in its own words *)

Definition payload {A} (r : Response A) : option A :=
  match r with
  | Ok _ data => Some data
  | Error _ _ => None
  end.

(** The sum of a column over the owner's sessions with status [analyzed]:
    every other session contributes nothing. *)
Fixpoint analyzed_sum (f : SpeechSession -> Z) (owner : Z) (db : Store) : Z :=
  match db with
  | [] => 0
  | s :: db' =>
      (if decide (user s = owner /\ status s = "analyzed") then f s else 0)
      + analyzed_sum f owner db'
  end.

(** Fillers per minute as the specification words it, not rounded. *)
Definition fillers_per_minute (db : Store) (owner : Z) : number :=
  if analyzed_sum duration owner db =? 0 then Int 0
  else mul (div (Int (analyzed_sum filler_count owner db))
                (Int (analyzed_sum duration owner db)))
           (Int 60).

(** A not-found answer: status 404, and no payload. *)
Definition not_found {A} (r : Response A) : Prop :=
  status_code r = HTTP_404_NOT_FOUND /\ payload r = None.

Definition reported_filler_rate (r : Response AnalyticsData) : option number :=
  average_filler_rate <$> payload r.

Definition filler_improvement_percent (r : Response AnalyticsData) : option number :=
  d ← payload r; m ← improvement_metrics d; m !! "filler_improvement_percent".

(** The two windows of the improvement metrics over the owner's sessions. *)
Definition recent_window (db : Store) (owner : Z) (now1 : Z) : Store :=
  List.filter (fun s => bool_decide (user s = owner /\ now1 - timedelta_days 30 <= date s)) db.



(** Some supplied identifier is the primary key of a session of the actor. *)
Definition matches_owner (db : Store) (u : User) (session_ids : list Z) : Prop :=
  exists s, In s db /\ user s = pk u /\ In (id s) session_ids.

#[global] Instance In_decision (x : Z) (l : list Z) : Decision (In x l) :=
  in_dec Z.eq_dec x l.

(** The sessions a bulk request of the actor reaches. *)
Definition reached (u : User) (session_ids : list Z) (s : SpeechSession) : bool :=
  bool_decide (user s = pk u /\ In (id s) session_ids).

(** The bounds of the data model on a stored session. *)
Definition in_unit_interval (x : float) : bool :=
  PrimFloat.leb 0%float x && PrimFloat.leb x 1%float.

Definition within_bounds (s : SpeechSession) : bool :=
  (0 <=? filler_count s)
  && match confidence_score s with
     | Some x => in_unit_interval x
     | None => true
     end.



(** The same, as one test on a row. *)
Definition passes (local_date : Z -> Z) (c : Views.FilterData) (s : SpeechSession)
  : bool :=
  match Views.given (Views.f_status c) with
  | Some st => String.eqb (status s) st
  | None => true
  end
  && match Views.f_date_from c with
     | Some d => d <=? local_date (date s)
     | None => true
     end
  && match Views.f_date_to c with
     | Some d => local_date (date s) <=? d
     | None => true
     end
  && match Views.given (Views.f_search c) with
     | Some q => Views.icontains (transcription s) q
                 || Views.icontains (pacing_analysis s) q
     | None => true
     end.

Definition latest_first (a b : SpeechSession) : Prop := date b <= date a.

(** The sessions of an owner, and the sessions of everyone else. *)
Definition owner_sessions (db : Store) (owner : Z) : Store :=
  List.filter (fun s => bool_decide (user s = owner)) db.

Definition foreign_sessions (db : Store) (owner : Z) : Store :=
  List.filter (fun s => bool_decide (user s <> owner)) db.

(** The owner's analyzed sessions. *)
Definition analyzed_sessions_of (db : Store) (owner : Z) : Store :=
  List.filter (fun s => bool_decide (user s = owner /\ status s = "analyzed")) db.

(** How many sessions of the owner have a status. *)
Definition count_status (db : Store) (owner : Z) (st : string) : Z :=
  Z.of_nat (length (List.filter (fun s => bool_decide (user s = owner /\ status s = st)) db)).

(** The integer bounds of the data model. *)
Definition counted (s : SpeechSession) : Prop :=
  0 <= filler_count s /\ 0 < duration s.

(** The score passes the test of the serializer. *)
Definition score_accepted (s : SpeechSession) : Prop :=
  match confidence_score s with
  | Some x => PrimFloat.ltb x 0 = false /\ PrimFloat.ltb 1 x = false
  | None => True
  end.

(** The columns no bulk update is allowed to assign. *)
Definition fixed_columns (s : SpeechSession)
  : Z * Z * Z * Z * option string * string * Z :=
  (id s, user s, date s, duration s, audio_file s, transcription s, created_at s).

(** The columns a change of status has no business with. *)
Definition beside_status (s : SpeechSession)
  : Z * Z * Z * Z * Z * string * option string * string * option float * Z :=
  (id s, user s, date s, duration s, filler_count s, pacing_analysis s,
   audio_file s, transcription s, confidence_score s, created_at s).

(** The bounds a validated write keeps. *)
Definition sound (s : SpeechSession) : Prop := counted s /\ score_accepted s.

(** A body no update accepts: a duration that is not positive, a negative
    filler count, a score below 0 or above 1, a status that is no choice,
    or, for a full update, no duration. *)
Definition refused (partial : bool) (d : SpeechSessionSerializer.Data) : Prop :=
  (exists z, SpeechSessionSerializer.d_duration d = Some z /\ z <= 0)
  \/ (exists z, SpeechSessionSerializer.d_filler_count d = Some z /\ z < 0)
  \/ (exists x, SpeechSessionSerializer.d_confidence_score d = Some (Some x)
                /\ (PrimFloat.ltb x 0 = true \/ PrimFloat.ltb 1 x = true))
  \/ (exists st, SpeechSessionSerializer.d_status d = Some st
                 /\ ~ In st SpeechSessionSerializer.STATUS_CHOICES)
  \/ (partial = false /\ SpeechSessionSerializer.d_duration d = None).

(** The shell commands of a complete setup, in order; the virtual
    environment is created only where there is none. *)
Definition setup_script (w : Setup.World) : list string :=
  (if Setup.venv_exists w then [] else ["python -m venv venv"])
  ++ [ "pip install -r requirements.txt";
       "python manage.py makemigrations";
       "python manage.py migrate";
       "python -m spacy download en_core_web_sm" ].

(** Everything a complete setup needs of the machine. *)
Definition setup_ready (w : Setup.World) : Prop :=
  Setup.python_3_8 w = true
  /\ Forall (fun c => Setup.command_ok w c = true) (setup_script w)
  /\ Setup.django_setup_ok w = true
  /\ Setup.superuser_query_ok w = true
  /\ (Setup.superuser_exists w = true \/ Setup.createsuperuser_ok w = true).

(** The numbers 1 to [n]. *)
Definition page_numbers (n : Z) : list Z :=
  map (fun i => Z.of_nat i + 1) (seq 0 (Z.to_nat n)).

(** ** Sample data *)

Module Sample.

Definition session (i owner at_ dur fillers : Z) (st : string) : SpeechSession :=
  {| id := i;
     user := owner;
     date := at_;
     duration := dur;
     filler_count := fillers;
     pacing_analysis := "Steady pace";
     status := st;
     audio_file := None;
     transcription := "";
     confidence_score := None;
     created_at := at_;
     updated_at := at_ |}.

Definition alice : User :=
  {| pk := 1;
     is_authenticated := true;
     is_2fa_enabled := false;
     is_verified := false;
     has_2fa_setup := false |}.

(** Owner 1 with the two analyzed sessions of the specification's example,
    besides a pending session of hers and a session of owner 2. *)
Definition db : Store :=
  [ session 1 1 0 60 6 "analyzed";
    session 2 1 0 120 3 "analyzed";
    session 3 1 0 7 100 "pending";
    session 4 2 0 7 100 "analyzed" ].

Definition two_analyzed : Store :=
  [ session 1 1 0 60 6 "analyzed"; session 2 1 0 120 3 "analyzed" ].

(** One analyzed session of seven seconds with one filler. *)
Definition seven_seconds : Store := [ session 1 1 0 7 1 "analyzed" ].

(** Update maps of a bulk request. *)
Definition out_of_range : gmap string json :=
  {[ "filler_count" := JInt (-5); "confidence_score" := JFloat 1.5%float ]}.

Definition archive : gmap string json := {[ "status" := JStr "archived" ]}.

Definition with_duration : gmap string json := {[ "duration" := JInt 5 ]}.

(** A session of owner 1 with an audio file and a confidence score of 0.0. *)
Definition zero_confidence : SpeechSession :=
  {| id := 5;
     user := 1;
     date := 0;
     duration := 30;
     filler_count := 4;
     pacing_analysis := "Steady pace";
     status := "analyzed";
     audio_file := Some "speech_sessions/2025/01/01/a.wav";
     transcription := "";
     confidence_score := Some 0%float;
     created_at := 0;
     updated_at := 0 |}.

Definition no_backends : SpeechSession -> bool := fun _ => true.

(** A PATCH body that sets [filler_count] to 0. *)
Definition no_fillers : SpeechSessionSerializer.Data :=
  {| SpeechSessionSerializer.d_duration := None;
     SpeechSessionSerializer.d_filler_count := Some 0;
     SpeechSessionSerializer.d_pacing_analysis := None;
     SpeechSessionSerializer.d_status := None;
     SpeechSessionSerializer.d_audio_file := None;
     SpeechSessionSerializer.d_transcription := None;
     SpeechSessionSerializer.d_confidence_score := None |}.

(** A PATCH body with a new status and a negative filler count. *)
Definition negative_fillers : SpeechSessionSerializer.Data :=
  {| SpeechSessionSerializer.d_duration := None;
     SpeechSessionSerializer.d_filler_count := Some (-1);
     SpeechSessionSerializer.d_pacing_analysis := None;
     SpeechSessionSerializer.d_status := Some "archived";
     SpeechSessionSerializer.d_audio_file := None;
     SpeechSessionSerializer.d_transcription := None;
     SpeechSessionSerializer.d_confidence_score := None |}.

(** A PATCH body that archives and sets the score to 0.5. *)
Definition archive_patch : SpeechSessionSerializer.Data :=
  {| SpeechSessionSerializer.d_duration := None;
     SpeechSessionSerializer.d_filler_count := Some 2;
     SpeechSessionSerializer.d_pacing_analysis := None;
     SpeechSessionSerializer.d_status := Some "archived";
     SpeechSessionSerializer.d_audio_file := None;
     SpeechSessionSerializer.d_transcription := None;
     SpeechSessionSerializer.d_confidence_score := Some (Some 0.5%float) |}.

(** A creation request of 45 seconds with an uploaded file, and the clock
    of its insert. *)
Definition upload : SpeechSessionCreateSerializer.Data :=
  {| SpeechSessionCreateSerializer.d_duration := Some 45;
     SpeechSessionCreateSerializer.d_audio_file := Some "speech_sessions/2025/01/01/b.wav";
     SpeechSessionCreateSerializer.d_transcription := None |}.

Definition noon : InsertClock :=
  {| now_date := 7; now_created_at := 8; now_updated_at := 9 |}.

(** A second actor, and a sequence of requests of hers. *)
Definition bob : User :=
  {| pk := 2;
     is_authenticated := true;
     is_2fa_enabled := false;
     is_verified := false;
     has_2fa_setup := false |}.

Definition requests_of_bob : list (User * Surface.Write) :=
  [ (bob, Surface.BulkUpdate [1; 2; 4] archive);
    (bob, Surface.Create upload 7 noon 10);
    (bob, Surface.Destroy no_backends 1);
    (bob, Surface.PageBulkAction Views.POST (Some ("delete", [1; 2; 3; 4]))) ].

(** Days are counted in UTC. *)
Definition utc_date (t : Z) : Z := t / 86400000000.

Definition pending_only : Views.FilterData :=
  {| Views.f_status := Some "pending";
     Views.f_date_from := Some 0;
     Views.f_date_to := None;
     Views.f_search := Some "PACE" |}.

End Sample.

(** * Properties *)

(** ** Querysets *)

Lemma in_qs_filter p qs s : In s (qs_filter p qs) <-> In s qs /\ p s = true.
Proof. apply filter_In. Qed.

Lemma qs_filter_twice p q qs :
  qs_filter q (qs_filter p qs) = qs_filter (fun s => p s && q s) qs.
Proof.
  induction qs as [|s qs IH]; simpl; [reflexivity|].
  destruct (p s); simpl; [destruct (q s)|]; simpl; congruence.
Qed.

Lemma exists_In (qs : Store) : exists_ qs = true <-> exists s, In s qs.
Proof.
  destruct qs as [|s qs]; simpl; split; try discriminate.
  - intros [s []].
  - intros _. exists s. now left.
  - reflexivity.
Qed.


Lemma is_analyzed_spec s : is_analyzed s = true <-> status s = "analyzed".
Proof. apply String.eqb_eq. Qed.

(** The aggregate over the analyzed part of the owner's queryset is the sum
    of the contributions of the specification. *)
Lemma total_analyzed f db u :
  total f (qs_filter is_analyzed (get_queryset db u)) = analyzed_sum f (pk u) db.
Proof.
  unfold get_queryset. rewrite qs_filter_twice.
  induction db as [|s db IH]; simpl; [reflexivity|].
  destruct (user s =? pk u) eqn:Hu; simpl.
  - apply Z.eqb_eq in Hu. destruct (is_analyzed s) eqn:Ha; simpl.
    + apply is_analyzed_spec in Ha. rewrite decide_True by done. now rewrite IH.
    + rewrite decide_False; [exact IH|].
      intros [_ Hs]. apply is_analyzed_spec in Hs. congruence.
  - apply Z.eqb_neq in Hu. rewrite decide_False by (intros []; done). exact IH.
Qed.

(** ** Analytics *)

Lemma Sum_analyzed f db u :
  Sum f (qs_filter is_analyzed (get_queryset db u)) =
  if exists_ (qs_filter is_analyzed (get_queryset db u))
  then Some (analyzed_sum f (pk u) db) else None.
Proof. unfold Sum. now rewrite total_analyzed. Qed.

Lemma analyzed_sum_none f db u :
  exists_ (qs_filter is_analyzed (get_queryset db u)) = false ->
  analyzed_sum f (pk u) db = 0.
Proof.
  intros H. rewrite <- total_analyzed.
  destruct (qs_filter is_analyzed (get_queryset db u)); [reflexivity|discriminate].
Qed.

Lemma avg_filler_rate_spec db u :
  avg_filler_rate (get_queryset db u) =
  if 0 <? analyzed_sum duration (pk u) db
  then mul (div (Int (analyzed_sum filler_count (pk u) db))
                (Int (analyzed_sum duration (pk u) db)))
           (Int 60)
  else Int 0.
Proof.
  unfold avg_filler_rate. rewrite !Sum_analyzed.
  destruct (exists_ _) eqn:He.
  - simpl or0_int. destruct (0 <? analyzed_sum duration (pk u) db) eqn:Hd.
    + apply Z.ltb_lt in Hd.
      replace (analyzed_sum duration (pk u) db =? 0) with false
        by (symmetry; apply Z.eqb_neq; lia).
      reflexivity.
    + now rewrite andb_false_r.
  - rewrite (analyzed_sum_none duration _ _ He). reflexivity.
Qed.

Lemma analyzed_sum_skip f owner s db :
  status s <> "analyzed" -> analyzed_sum f owner (s :: db) = analyzed_sum f owner db.
Proof. intros H. simpl. rewrite decide_False by (intros []; done). lia. Qed.

Lemma reported_filler_rate_spec db u now1 now2 :
  reported_filler_rate (analytics db u now1 now2) =
  Some (if 0 <? analyzed_sum duration (pk u) db
        then round2 (mul (div (Int (analyzed_sum filler_count (pk u) db))
                              (Int (analyzed_sum duration (pk u) db)))
                         (Int 60))
        else Int 0).
Proof.
  unfold analytics. destruct (count (get_queryset db u) =? 0) eqn:Hc.
  - cbn. f_equal.
    assert (He : exists_ (qs_filter is_analyzed (get_queryset db u)) = false).
    { destruct (get_queryset db u); [reflexivity|discriminate]. }
    now rewrite (analyzed_sum_none duration _ _ He).
  - cbn. f_equal. rewrite avg_filler_rate_spec.
    now destruct (0 <? analyzed_sum duration (pk u) db).
Qed.

(** C1, as stated, fails: for one analyzed session of 7 seconds with one
    filler the action reports 8.57, while fillers over duration times 60 is
    8.571428571428571. *)
Lemma average_filler_rate_unrounded_counterexample :
  reported_filler_rate (analytics Sample.seven_seconds Sample.alice 0 0)
  = Some (Float 8.57%float)
  /\ fillers_per_minute Sample.seven_seconds 1 = Float 8.571428571428571%float
  /\ PrimFloat.eqb 8.57%float 8.571428571428571%float = false.
Proof. repeat split; reflexivity. Qed.

(** C1, amended: for every owner, [average_filler_rate] is the sum of
    [filler_count] over the owner's analyzed sessions divided by the sum of
    their durations, times 60, rounded to two decimals, and 0 when that sum
    of durations is not positive; a session that is not analyzed changes
    nothing of it; two analyzed sessions of 60 and 120 seconds with 6 and 3
    fillers give 3.0. *)
Theorem analytics_average_filler_rate (db : Store) (u : User) (now1 now2 : Z) :
  reported_filler_rate (analytics db u now1 now2)
  = Some (if 0 <? analyzed_sum duration (pk u) db
          then round2 (mul (div (Int (analyzed_sum filler_count (pk u) db))
                                (Int (analyzed_sum duration (pk u) db)))
                           (Int 60))
          else Int 0)
  /\ (forall s, status s <> "analyzed" ->
        reported_filler_rate (analytics (s :: db) u now1 now2)
        = reported_filler_rate (analytics db u now1 now2))
  /\ reported_filler_rate (analytics Sample.two_analyzed Sample.alice now1 now2)
     = Some (Float 3%float).
Proof.
  split; [apply reported_filler_rate_spec|split].
  - intros s Hs. rewrite !reported_filler_rate_spec.
    now rewrite !(analyzed_sum_skip _ _ s db Hs).
  - rewrite reported_filler_rate_spec. reflexivity.
Qed.

Lemma recent_window_spec db u now1 :
  qs_filter (fun s => now1 - timedelta_days 30 <=? date s) (get_queryset db u)
  = recent_window db (pk u) now1.
Proof.
  unfold get_queryset, recent_window. rewrite qs_filter_twice.
  apply filter_ext. intros s.
  destruct (user s =? pk u) eqn:Hu, (now1 - timedelta_days 30 <=? date s) eqn:Hd;
    simpl; symmetry;
    rewrite ?bool_decide_eq_true, ?bool_decide_eq_false;
    rewrite ?Z.eqb_eq, ?Z.eqb_neq, ?Z.leb_le, ?Z.leb_gt in *; lia.
Qed.






(** ** Bulk update *)

Lemma id_in_spec ids s : id_in ids s = true <-> In (id s) ids.
Proof.
  unfold id_in. rewrite existsb_exists. split.
  - intros (x & Hx & He). apply Z.eqb_eq in He. now subst.
  - intros H. exists (id s). split; [exact H|apply Z.eqb_refl].
Qed.

Lemma reached_spec u ids s : (user s =? pk u) && id_in ids s = reached u ids s.
Proof.
  unfold reached. apply eq_true_iff_eq.
  rewrite andb_true_iff, Z.eqb_eq, id_in_spec, bool_decide_eq_true. tauto.
Qed.

Lemma bulk_queryset db u ids :
  qs_filter (id_in ids) (get_queryset db u) = qs_filter (reached u ids) db.
Proof.
  unfold get_queryset. rewrite qs_filter_twice. apply filter_ext.
  intros s. apply reached_spec.
Qed.

Lemma matches_owner_spec db u ids :
  exists_ (qs_filter (reached u ids) db) = true <-> matches_owner db u ids.
Proof.
  rewrite exists_In. unfold matches_owner. split; intros [s Hs]; exists s.
  - apply in_qs_filter in Hs as [Hin Hr]. apply bool_decide_eq_true in Hr. tauto.
  - apply in_qs_filter. split; [tauto|]. apply bool_decide_eq_true. tauto.
Qed.

Lemma QuerySet_update_ext sel sel' a db :
  (forall s, sel s = sel' s) ->
  QuerySet_update sel a db = QuerySet_update sel' a db.
Proof.
  intros H. unfold QuerySet_update. f_equal.
  - f_equal. apply filter_ext. exact H.
  - apply map_ext. intros s. now rewrite H.
Qed.

(** The decisions of the action, in the order it takes them. *)
Lemma bulk_update_unfold db u ids updates :
  bulk_update db u ids updates =
  if is_nil ids || bool_decide (updates = ∅) then
    (Error HTTP_400_BAD_REQUEST "Both session_ids and updates are required", db)
  else if negb (exists_ (qs_filter (reached u ids) db)) then
    (Error HTTP_404_NOT_FOUND "No valid sessions found", db)
  else if negb (bool_decide (dom updates ∖ allowed_fields = ∅)) then
    (Error HTTP_400_BAD_REQUEST "Invalid fields for bulk update", db)
  else
    match prepare updates with
    | None => (Error HTTP_500_INTERNAL_SERVER_ERROR "update", db)
    | Some a =>
        (Ok HTTP_200_OK (bulk_updated (count (qs_filter (reached u ids) db))),
         map (fun s => if reached u ids s then assign a s else s) db)
    end.
Proof.
  unfold bulk_update. rewrite bulk_queryset.
  destruct (is_nil ids || bool_decide (updates = ∅)); [reflexivity|].
  destruct (negb (exists_ (qs_filter (reached u ids) db))); [reflexivity|].
  destruct (negb (bool_decide (dom updates ∖ allowed_fields = ∅))); [reflexivity|].
  destruct (prepare updates) as [a|]; [|reflexivity].
  rewrite (QuerySet_update_ext _ (reached u ids)) by (intros; apply reached_spec).
  reflexivity.
Qed.

Lemma unknown_field_detected (updates : gmap string json) k :
  (k ∈ dom updates) -> (k ∉ allowed_fields) ->
  bool_decide (updates = ∅) = false
  /\ bool_decide (dom updates ∖ allowed_fields = ∅) = false.
Proof.
  intros Hk Hn. split; apply bool_decide_eq_false.
  - intros ->. set_solver.
  - set_solver.
Qed.

(** C5, as stated, fails: a request with the field [duration] in its update
    map, whose only identifier is a session of another owner, is answered
    404 and not 400. *)
Lemma bulk_update_unknown_field_404_counterexample :
  ("duration" ∈ dom Sample.with_duration)
  /\ ("duration" ∉ allowed_fields)
  /\ bulk_update Sample.db Sample.alice [4] Sample.with_duration
     = (Error 404 "No valid sessions found", Sample.db).
Proof.
  split; [|split].
  - compute_done.
  - compute_done.
  - reflexivity.
Qed.

(** C5, amended: a bulk-update request whose update map holds a field name
    outside the allow-list fails as a whole and modifies no session; it is
    answered 404 when identifiers are supplied and none of them is a session
    of the owner, and 400 in every other case.  For any update map, 404 is
    the answer when identifiers and updates are both supplied and no
    identifier is a session of the owner, and 400 when either is missing. *)
Theorem bulk_update_unknown_field
    (db : Store) (u : User) (ids : list Z) (updates : gmap string json) (k : string) :
  (k ∈ dom updates) -> (k ∉ allowed_fields) ->
  snd (bulk_update db u ids updates) = db
  /\ (ids <> [] -> ~ matches_owner db u ids ->
      status_code (fst (bulk_update db u ids updates)) = 404)
  /\ (ids = [] \/ matches_owner db u ids ->
      status_code (fst (bulk_update db u ids updates)) = 400)
  /\ (forall updates' : gmap string json,
        (ids <> [] -> updates' <> ∅ -> ~ matches_owner db u ids ->
         bulk_update db u ids updates' = (Error 404 "No valid sessions found", db))
        /\ (ids = [] \/ updates' = ∅ ->
            bulk_update db u ids updates'
            = (Error 400 "Both session_ids and updates are required", db))).
Proof.
  intros Hk Hn. destruct (unknown_field_detected updates k Hk Hn) as [He Hd].
  pose proof (matches_owner_spec db u ids) as Hm.
  split; [|split; [|split]].
  - rewrite bulk_update_unfold, He, Hd, orb_false_r.
    destruct (is_nil ids); [reflexivity|].
    destruct (negb (exists_ _)); reflexivity.
  - intros Hi Hno. rewrite bulk_update_unfold, He, Hd, orb_false_r.
    destruct ids as [|i ids]; [done|]. simpl is_nil. cbv iota.
    destruct (exists_ (qs_filter (reached u (i :: ids)) db)) eqn:Hx; [|reflexivity].
    exfalso. apply Hno, Hm. reflexivity.
  - intros Hc. rewrite bulk_update_unfold, He, Hd, orb_false_r.
    destruct (is_nil ids) eqn:Hi; [reflexivity|].
    destruct Hc as [-> | Hc]; [discriminate|].
    apply Hm in Hc. rewrite Hc. reflexivity.
  - intros updates'. split.
    + intros Hi Hu Hno. rewrite bulk_update_unfold.
      destruct ids as [|i ids]; [done|]. simpl is_nil.
      rewrite bool_decide_eq_false_2 by done. simpl orb.
      destruct (exists_ (qs_filter (reached u (i :: ids)) db)) eqn:Hx; [|reflexivity].
      exfalso. apply Hno, Hm. reflexivity.
    + intros [-> | ->]; rewrite bulk_update_unfold; [reflexivity|].
      rewrite bool_decide_eq_true_2 by done. now rewrite orb_true_r.
Qed.

Lemma bulk_update_unknown_field_witness :
  snd (bulk_update Sample.db Sample.alice [1] Sample.with_duration) = Sample.db
  /\ ([1] <> [] -> ~ matches_owner Sample.db Sample.alice [1] ->
      status_code (fst (bulk_update Sample.db Sample.alice [1] Sample.with_duration)) = 404)
  /\ ([1] = [] \/ matches_owner Sample.db Sample.alice [1] ->
      status_code (fst (bulk_update Sample.db Sample.alice [1] Sample.with_duration)) = 400)
  /\ (forall updates' : gmap string json,
        ([1] <> [] -> updates' <> ∅ -> ~ matches_owner Sample.db Sample.alice [1] ->
         bulk_update Sample.db Sample.alice [1] updates'
         = (Error 404 "No valid sessions found", Sample.db))
        /\ ([1] = [] \/ updates' = ∅ ->
            bulk_update Sample.db Sample.alice [1] updates'
            = (Error 400 "Both session_ids and updates are required", Sample.db))).
Proof.
  apply (bulk_update_unknown_field Sample.db Sample.alice [1] Sample.with_duration "duration").
  - compute_done.
  - compute_done.
Defined.





Example bulk_update_skips_foreign_ids :
  map (fun s => (id s, user s, status s))
      (snd (bulk_update Sample.db Sample.alice [1; 4; 9] Sample.archive))
  = [(1, 1, "archived"); (2, 1, "analyzed"); (3, 1, "pending"); (4, 2, "analyzed")]
  /\ updated_count <$> payload (fst (bulk_update Sample.db Sample.alice [1; 4; 9] Sample.archive))
     = Some 1.
Proof. split; reflexivity. Qed.

(** [QuerySet.update] touches neither the keys nor the timestamps of a row. *)
Lemma assign_frame a s :
  id (assign a s) = id s /\ user (assign a s) = user s /\ date (assign a s) = date s
  /\ created_at (assign a s) = created_at s /\ updated_at (assign a s) = updated_at s.
Proof. repeat split. Qed.

Lemma QuerySet_update_updated_at sel a db :
  map updated_at (snd (QuerySet_update sel a db)) = map updated_at db.
Proof.
  unfold QuerySet_update. simpl. rewrite map_map. apply map_ext.
  intros s. now destruct (sel s).
Qed.

Lemma bulk_update_updated_at db u ids updates :
  map updated_at (snd (bulk_update db u ids updates)) = map updated_at db.
Proof.
  rewrite bulk_update_unfold.
  repeat match goal with
         | |- context [if ?b then _ else _] => destruct b; try reflexivity
         end.
  destruct (prepare updates); [|reflexivity].
  simpl. rewrite map_map. apply map_ext. intros s. now destruct (reached u ids s).
Qed.

(** [Model.save] stamps the row it writes. *)
Lemma save_updated_at obj now db s :
  In s (save obj now db) -> id s = id obj -> updated_at s = now.
Proof.
  unfold save. intros Hin Hid. apply in_map_iff in Hin as (s0 & Hs & _).
  destruct (id s0 =? id obj) eqn:He; subst s; [reflexivity|].
  apply Z.eqb_neq in He. contradiction.
Qed.

(** C3 fails on the code: on a store within the bounds of the data model,
    the owner's bulk update with [filler_count] -5 and [confidence_score]
    1.5 is answered 200 and leaves session 1 with both values stored. *)
Theorem bulk_update_stores_out_of_range :
  forallb within_bounds Sample.db = true
  /\ fst (bulk_update Sample.db Sample.alice [1] Sample.out_of_range)
     = Ok 200 (bulk_updated 1)
  /\ map (fun s => (id s, filler_count s, confidence_score s, within_bounds s))
         (snd (bulk_update Sample.db Sample.alice [1] Sample.out_of_range))
     = [ (1, -5, Some 1.5%float, false); (2, 3, None, true);
         (3, 100, None, true); (4, 100, None, true) ].
Proof. repeat split; reflexivity. Qed.

(** The serializer, on the contrary, refuses both values. *)
Lemma serializer_refuses_out_of_range :
  SpeechSessionSerializer.validate_filler_count (-5) = None
  /\ SpeechSessionSerializer.validate_confidence_score (Some 1.5%float) = None.
Proof. split; reflexivity. Qed.

(** C9 fails on the code: the owner's bulk update that archives session 1,
    and the bulk action [archive] of the page surface, change the status of
    the session and leave [updated_at] at the instant of creation. *)
Theorem bulk_update_leaves_updated_at :
  map (fun s => (id s, status s, created_at s, updated_at s))
      (snd (bulk_update Sample.db Sample.alice [1] Sample.archive))
  = [ (1, "archived", 0, 0); (2, "analyzed", 0, 0);
      (3, "pending", 0, 0); (4, "analyzed", 0, 0) ]
  /\ fst (bulk_update Sample.db Sample.alice [1] Sample.archive)
     = Ok 200 (bulk_updated 1)
  /\ map (fun s => (id s, status s, created_at s, updated_at s))
         (snd (Views.session_bulk_action_view Sample.db Sample.alice Views.POST
                 (Some ("archive", [2]))))
     = [ (1, "analyzed", 0, 0); (2, "archived", 0, 0);
         (3, "pending", 0, 0); (4, "analyzed", 0, 0) ].
Proof. repeat split; reflexivity. Qed.

(** ** Object lookup *)

Lemma unique_id (db : Store) s s' :
  List.NoDup (map id db) -> In s db -> In s' db -> id s = id s' -> s = s'.
Proof.
  induction db as [|x db IH]; simpl; [tauto|].
  intros Hnd [-> | Hs] [-> | Hs'] He; inversion Hnd as [|? ? Hx Hnd']; subst.
  - reflexivity.
  - exfalso. apply Hx. rewrite He. now apply in_map.
  - exfalso. apply Hx. rewrite <- He. now apply in_map.
  - now apply IH.
Qed.

Lemma get_object_cases db u flt key :
  match get_object db u flt key with
  | Found obj => In obj db /\ id obj = key /\ user obj = pk u /\ flt obj = true
  | NotFound => forall s, In s db -> user s = pk u -> flt s = true -> id s <> key
  | Denied => False
  end.
Proof.
  unfold get_object, get_queryset. rewrite qs_filter_twice.
  destruct (find _ _) as [obj|] eqn:Hf.
  - apply find_some in Hf as [Hin Hid]. apply Z.eqb_eq in Hid.
    apply in_qs_filter in Hin as [Hin Hp]. apply andb_true_iff in Hp as [Hu Hflt].
    unfold IsOwnerPermission.has_object_permission. rewrite Hu.
    apply Z.eqb_eq in Hu. auto.
  - intros s Hin Hu Hflt Hid.
    pose proof (find_none _ _ Hf s) as Hn. simpl in Hn.
    rewrite (proj2 (Z.eqb_eq _ _) Hid) in Hn. discriminate Hn.
    apply in_qs_filter. split; [exact Hin|].
    now rewrite Hflt, (proj2 (Z.eqb_eq _ _) Hu).
Qed.

(** The row of another owner is not found, whatever the request. *)
Lemma get_object_foreign db u flt s :
  List.NoDup (map id db) -> In s db -> user s <> pk u ->
  get_object db u flt (id s) = NotFound.
Proof.
  intros Hnd Hin Hu. pose proof (get_object_cases db u flt (id s)) as H.
  destruct (get_object db u flt (id s)) as [obj| |]; [|reflexivity|contradiction].
  destruct H as (Hobj & Hid & Huo & _).
  rewrite (unique_id db obj s Hnd Hobj Hin Hid) in Huo. contradiction.
Qed.

Lemma get_object_own db u flt s :
  List.NoDup (map id db) -> In s db -> user s = pk u -> flt s = true ->
  get_object db u flt (id s) = Found s.
Proof.
  intros Hnd Hin Hu Hflt. pose proof (get_object_cases db u flt (id s)) as H.
  destruct (get_object db u flt (id s)) as [obj| |]; [| |contradiction].
  - destruct H as (Hobj & Hid & _). now rewrite (unique_id db obj s Hnd Hobj Hin Hid).
  - exfalso. now apply (H s).
Qed.

Lemma get_object_or_404_foreign db u s :
  List.NoDup (map id db) -> In s db -> user s <> pk u ->
  Views.get_object_or_404 db (id s) u = None.
Proof.
  intros Hnd Hin Hu. unfold Views.get_object_or_404.
  destruct (find _ db) as [obj|] eqn:Hf; [|reflexivity].
  apply find_some in Hf as [Hobj Hp]. apply andb_true_iff in Hp as [Hid Huo].
  apply Z.eqb_eq in Hid, Huo.
  rewrite (unique_id db obj s Hnd Hobj Hin Hid) in Huo. contradiction.
Qed.

(** An actor the permission gate stops is answered before the store is read. *)
Lemma dispatch_stopped {A} u denial db db' (h h' : Response A * Store) :
  check_permissions u = Some denial ->
  fst (dispatch u db h) = fst (dispatch u db' h') /\ snd (dispatch u db h) = db.
Proof. unfold dispatch. intros ->. destruct denial. split; reflexivity. Qed.

(** C4: for an actor past the authentication gate of a surface, a request
    to retrieve, update, delete or re-analyze a session of another owner is
    answered not found, carries no session and changes nothing; no
    permission-denied answer is given. *)
Theorem foreign_session_not_found
    (hash : string -> Z) (strftime : Z -> string)
    (PostData : Type) (UpdateForm : PostData -> SpeechSession -> option SpeechSession)
    (db : Store) (u : User) (s : SpeechSession)
    (flt : SpeechSession -> bool) (partial : bool) (data : SpeechSessionSerializer.Data)
    (method : Views.Method) (post : PostData) (now now' : Z) :
  List.NoDup (map id db) -> In s db -> user s <> pk u ->
  (check_permissions u = None ->
     not_found (fst (dispatch u db (retrieve db u flt (id s), db)))
     /\ (not_found (fst (dispatch u db (update db u flt (id s) partial data now)))
         /\ snd (dispatch u db (update db u flt (id s) partial data now)) = db)
     /\ (not_found (fst (dispatch u db (destroy db u flt (id s))))
         /\ snd (dispatch u db (destroy db u flt (id s))) = db)
     /\ (not_found (fst (dispatch u db (reanalyze hash strftime db u flt (id s) now now')))
         /\ snd (dispatch u db (reanalyze hash strftime db u flt (id s) now now')) = db))
  /\ (Views.decorators u = None ->
       Views.session_detail_view db u (id s) = (Views.Http404, db)
       /\ Views.session_update_view PostData UpdateForm db u (id s) method post now
          = (Views.Http404, db)
       /\ Views.session_delete_view db u (id s) method = (Views.Http404, db)).
Proof.
  intros Hnd Hin Hu. split.
  - intros Hg. unfold dispatch, retrieve, update, destroy, reanalyze.
    rewrite Hg, (get_object_foreign db u flt s Hnd Hin Hu). repeat split.
  - intros Hg.
    unfold Views.session_detail_view, Views.session_update_view,
      Views.session_delete_view, Views.decorated.
    rewrite Hg, (get_object_or_404_foreign db u s Hnd Hin Hu). repeat split.
Qed.

Lemma foreign_session_not_found_witness :
  (check_permissions Sample.alice = None ->
     not_found (fst (dispatch Sample.alice Sample.db
                       (retrieve Sample.db Sample.alice Sample.no_backends 4, Sample.db)))
     /\ (not_found (fst (dispatch Sample.alice Sample.db
                           (update Sample.db Sample.alice Sample.no_backends 4 true
                              Sample.no_fillers 9)))
         /\ snd (dispatch Sample.alice Sample.db
                   (update Sample.db Sample.alice Sample.no_backends 4 true
                      Sample.no_fillers 9)) = Sample.db)
     /\ (not_found (fst (dispatch Sample.alice Sample.db
                           (destroy Sample.db Sample.alice Sample.no_backends 4)))
         /\ snd (dispatch Sample.alice Sample.db
                   (destroy Sample.db Sample.alice Sample.no_backends 4)) = Sample.db)
     /\ (not_found (fst (dispatch Sample.alice Sample.db
                           (reanalyze (fun _ => 0) (fun _ => "2025-01-01 00:00")
                              Sample.db Sample.alice Sample.no_backends 4 9 10)))
         /\ snd (dispatch Sample.alice Sample.db
                   (reanalyze (fun _ => 0) (fun _ => "2025-01-01 00:00")
                      Sample.db Sample.alice Sample.no_backends 4 9 10)) = Sample.db))
  /\ (Views.decorators Sample.alice = None ->
       Views.session_detail_view Sample.db Sample.alice 4 = (Views.Http404, Sample.db)
       /\ Views.session_update_view unit (fun _ s => Some s) Sample.db Sample.alice 4
            Views.POST tt 9
          = (Views.Http404, Sample.db)
       /\ Views.session_delete_view Sample.db Sample.alice 4 Views.POST
          = (Views.Http404, Sample.db)).
Proof.
  apply (foreign_session_not_found (fun _ => 0) (fun _ => "2025-01-01 00:00")
           unit (fun _ s => Some s) Sample.db Sample.alice
           (Sample.session 4 2 0 7 100 "analyzed")).
  - apply NoDup_ListNoDup. compute_done.
  - simpl. auto.
  - simpl. lia.
Defined.

(** ** Re-analysis *)

Section ReanalyzeFacts.

Variable hash : string -> Z.
Variable strftime : Z -> string.

(** The tuple entry selected by the hash is one of -2 .. 2. *)
Lemma offset_range (h : Z) :
  nth (Z.to_nat (h mod 5)) offsets 0 = h mod 5 - 2
  /\ -2 <= nth (Z.to_nat (h mod 5)) offsets 0 <= 2.
Proof.
  pose proof (Z.mod_pos_bound h 5 ltac:(lia)) as Hb.
  assert (Hc : h mod 5 = 0 \/ h mod 5 = 1 \/ h mod 5 = 2 \/ h mod 5 = 3 \/ h mod 5 = 4)
    by lia.
  destruct Hc as [-> | [-> | [-> | [-> | ->]]]]; simpl; lia.
Qed.

(** What re-analysis does to every field but the confidence score. *)
Lemma reanalyzed_fields (session : SpeechSession) (now : Z) :
  filler_count (reanalyzed hash strftime session now)
  = Z.max 0 (filler_count session + (hash (pretty (id session)) mod 5 - 2))
  /\ pacing_analysis (reanalyzed hash strftime session now)
     = ("Re-analyzed on " +:+ strftime now +:+ ": ") +:+ pacing_analysis session
  /\ status (reanalyzed hash strftime session now) = "analyzed"
  /\ id (reanalyzed hash strftime session now) = id session
  /\ user (reanalyzed hash strftime session now) = user session
  /\ date (reanalyzed hash strftime session now) = date session
  /\ created_at (reanalyzed hash strftime session now) = created_at session.
Proof.
  repeat split.
  unfold reanalyzed. cbn [filler_count]. now rewrite (proj1 (offset_range _)).
Qed.

(** The confidence score after re-analysis, for a score that is unset or
    not zero. *)
Lemma reanalyzed_confidence (session : SpeechSession) (now : Z) :
  match confidence_score session with
  | None =>
      confidence_score (reanalyzed hash strftime session now)
      = Some (min1 (max0 (PrimFloat.add 0.8 0.05)))
  | Some x =>
      PrimFloat.eqb x 0 = false ->
      confidence_score (reanalyzed hash strftime session now)
      = Some (min1 (max0 (PrimFloat.add x 0.05)))
  end.
Proof.
  destruct (confidence_score session) as [x|] eqn:Hc; simpl; rewrite Hc; [|reflexivity].
  now intros ->.
Qed.

Lemma ltb_leb (x y : float) : PrimFloat.ltb x y = true -> PrimFloat.leb x y = true.
Proof.
  rewrite ltb_spec, leb_spec. unfold SFltb, SFleb.
  now destruct (SFcompare (Prim2SF x) (Prim2SF y)) as [[]|].
Qed.

Lemma clamp_in_unit_interval (y : float) : in_unit_interval (min1 (max0 y)) = true.
Proof.
  unfold min1, max0, in_unit_interval.
  destruct (PrimFloat.ltb 0 y) eqn:H0; [|reflexivity].
  destruct (PrimFloat.ltb y 1) eqn:H1; [|reflexivity].
  now rewrite (ltb_leb _ _ H0), (ltb_leb _ _ H1).
Qed.

(** Re-analysis keeps a session within the bounds of the data model. *)
Lemma reanalyzed_within_bounds (session : SpeechSession) (now : Z) :
  within_bounds (reanalyzed hash strftime session now) = true.
Proof.
  unfold within_bounds. apply andb_true_iff. split.
  - apply Z.leb_le. simpl. lia.
  - simpl. apply clamp_in_unit_interval.
Qed.

(** C7 fails on the code: a session with an audio file whose confidence
    score is set, to 0.0, is stored with 0.8500000000000001 after
    re-analysis, the score of an unset one; 0.0 plus 0.05 clamped to [0,1]
    is 0.05. *)
Theorem reanalyze_zero_confidence (now now' : Z) :
  has_audio Sample.zero_confidence = true
  /\ confidence_score Sample.zero_confidence = Some 0%float
  /\ map confidence_score
         (snd (reanalyze hash strftime [Sample.zero_confidence] Sample.alice
                 Sample.no_backends 5 now now'))
     = [Some 0.8500000000000001%float]
  /\ min1 (max0 (PrimFloat.add 0 0.05)) = 0.05%float.
Proof. repeat split; reflexivity. Qed.

(** C8: re-analysis of a session without an audio asset is answered with a
    400-class error and changes nothing of the store, so [filler_count],
    [pacing_analysis], [confidence_score], [status] and [updated_at] keep
    their values; for the owner past the gate the answer is 400. *)
Theorem reanalyze_without_audio
    (db : Store) (u : User) (flt : SpeechSession -> bool) (s : SpeechSession)
    (now now' : Z) :
  List.NoDup (map id db) -> In s db -> has_audio s = false ->
  snd (dispatch u db (reanalyze hash strftime db u flt (id s) now now')) = db
  /\ 400 <= status_code (fst (dispatch u db (reanalyze hash strftime db u flt (id s) now now')))
     < 500
  /\ (check_permissions u = None -> user s = pk u -> flt s = true ->
      fst (dispatch u db (reanalyze hash strftime db u flt (id s) now now'))
      = Error 400 "No audio file available for analysis").
Proof.
  intros Hnd Hin Ha. unfold dispatch.
  assert (Hr : reanalyze hash strftime db u flt (id s) now now'
               = (Error 404 "Not found.", db)
               \/ reanalyze hash strftime db u flt (id s) now now'
                  = (Error 400 "No audio file available for analysis", db)).
  { unfold reanalyze. pose proof (get_object_cases db u flt (id s)) as H.
    destruct (get_object db u flt (id s)) as [obj| |]; [|now left|contradiction].
    destruct H as (Hobj & Hid & _).
    rewrite (unique_id db obj s Hnd Hobj Hin Hid), Ha. now right. }
  split; [|split].
  - destruct (check_permissions u) as [[]|]; [reflexivity|].
    now destruct Hr as [-> | ->].
  - unfold check_permissions.
    destruct (negb (is_authenticated u)); [simpl; unfold HTTP_401_UNAUTHORIZED; lia|].
    destruct (IsOwnerPermission.has_permission u);
      [|simpl; unfold HTTP_403_FORBIDDEN; lia].
    destruct Hr as [-> | ->]; simpl; lia.
  - intros -> Hu Hflt. unfold reanalyze.
    now rewrite (get_object_own db u flt s Hnd Hin Hu Hflt), Ha.
Qed.

End ReanalyzeFacts.

Lemma reanalyze_without_audio_witness :
  snd (dispatch Sample.alice Sample.db
         (reanalyze (fun _ => 3) (fun _ => "2025-01-01 00:00")
            Sample.db Sample.alice Sample.no_backends 1 9 10)) = Sample.db
  /\ 400 <= status_code
              (fst (dispatch Sample.alice Sample.db
                      (reanalyze (fun _ => 3) (fun _ => "2025-01-01 00:00")
                         Sample.db Sample.alice Sample.no_backends 1 9 10)))
     < 500
  /\ (check_permissions Sample.alice = None -> 1 = pk Sample.alice -> true = true ->
      fst (dispatch Sample.alice Sample.db
             (reanalyze (fun _ => 3) (fun _ => "2025-01-01 00:00")
                Sample.db Sample.alice Sample.no_backends 1 9 10))
      = Error 400 "No audio file available for analysis").
Proof.
  apply (reanalyze_without_audio (fun _ => 3) (fun _ => "2025-01-01 00:00")
           Sample.db Sample.alice Sample.no_backends
           (Sample.session 1 1 0 60 6 "analyzed") 9 10).
  - apply NoDup_ListNoDup. compute_done.
  - simpl. auto.
  - reflexivity.
Defined.

(** ** The session list *)

Lemma append_assoc (a b c : string) : (a +:+ b) +:+ c = a +:+ b +:+ c.
Proof.
  induction a as [|x a IH]; [reflexivity|].
  change (String x ((a +:+ b) +:+ c) = String x (a +:+ b +:+ c)). now rewrite IH.
Qed.




Lemma filter_all (qs : Store) : qs_filter (fun _ => true) qs = qs.
Proof. induction qs as [|s qs IH]; simpl; congruence. Qed.

Lemma optional_filter {A} (o : option A) (f : A -> SpeechSession -> bool) qs :
  match o with
  | Some x => qs_filter (f x) qs
  | None => qs
  end
  = qs_filter (fun s => match o with Some x => f x s | None => true end) qs.
Proof. destruct o; [reflexivity|]. symmetry. apply filter_all. Qed.

Lemma apply_filters_passes local_date c qs :
  Views.apply_filters local_date c qs = qs_filter (passes local_date c) qs.
Proof.
  unfold Views.apply_filters, passes. cbv zeta.
  rewrite (optional_filter (Views.given (Views.f_status c))
             (fun st s => String.eqb (status s) st)).
  rewrite (optional_filter (Views.f_date_from c)
             (fun d s => d <=? local_date (date s))).
  rewrite (optional_filter (Views.f_date_to c)
             (fun d s => local_date (date s) <=? d)).
  rewrite (optional_filter (Views.given (Views.f_search c))
             (fun q s => Views.icontains (transcription s) q
                         || Views.icontains (pacing_analysis s) q)).
  rewrite !qs_filter_twice. apply filter_ext. intros s. now rewrite !andb_assoc.
Qed.


Lemma insert_by_date_perm s l : Permutation (Views.insert_by_date s l) (s :: l).
Proof.
  induction l as [|x l IH]; simpl; [reflexivity|].
  destruct (date s <? date x); [|reflexivity].
  rewrite IH. apply perm_swap.
Qed.

Lemma order_by_date_desc_perm qs : Permutation (Views.order_by_date_desc qs) qs.
Proof.
  induction qs as [|s qs IH]; simpl; [reflexivity|].
  rewrite insert_by_date_perm. now apply perm_skip.
Qed.

Lemma insert_by_date_sorted s l :
  StronglySorted latest_first l -> StronglySorted latest_first (Views.insert_by_date s l).
Proof.
  induction 1 as [|x l Hl IH Hx]; simpl.
  - repeat constructor.
  - destruct (date s <? date x) eqn:Hd.
    + apply Z.ltb_lt in Hd. constructor; [exact IH|].
      apply (Permutation_Forall (Permutation_sym (insert_by_date_perm s l))).
      constructor; [unfold latest_first; lia|exact Hx].
    + apply Z.ltb_ge in Hd. constructor; [now constructor|].
      constructor; [exact Hd|].
      eapply List.Forall_impl; [|exact Hx]. unfold latest_first. intros; lia.
Qed.

Lemma order_by_date_desc_sorted qs :
  StronglySorted latest_first (Views.order_by_date_desc qs).
Proof.
  induction qs as [|s qs IH]; simpl; [constructor|]. now apply insert_by_date_sorted.
Qed.



(** *** Pages *)

Lemma num_pages_pos n : 1 <= Views.Paginator.num_pages 10 n.
Proof. unfold Views.Paginator.num_pages. lia. Qed.

Lemma valid_number_range n number :
  1 <= Views.Paginator.valid_number 10 n number <= Views.Paginator.num_pages 10 n
  /\ (forall k, number = Some k -> 1 <= k <= Views.Paginator.num_pages 10 n ->
       Views.Paginator.valid_number 10 n number = k).
Proof.
  pose proof (num_pages_pos n) as Hp. unfold Views.Paginator.valid_number.
  destruct number as [k|].
  - destruct ((k <? 1) || (Views.Paginator.num_pages 10 n <? k)) eqn:Hk.
    + split; [lia|]. intros k' [= <-] Hr.
      apply orb_true_iff in Hk as [Hk | Hk]; apply Z.ltb_lt in Hk; lia.
    + apply orb_false_iff in Hk as [H1 H2].
      apply Z.ltb_ge in H1, H2. split; [lia|]. now intros k' [= <-] _.
  - split; [lia|]. intros k [=].
Qed.





Example session_list_view_sample :
  map id (Views.listed Sample.utc_date Sample.db Sample.alice (Some Sample.pending_only))
  = [3]
  /\ map id (Views.listed Sample.utc_date Sample.db Sample.alice None) = [1; 2; 3].
Proof. split; reflexivity. Qed.

(** ** Worked examples *)

(** Four fillers a session in the earlier window, one in the last 30 days:
    an improvement of 75 percent. *)
Example filler_improvement_sample :
  filler_improvement_percent
    (analytics [ Sample.session 1 1 (timedelta_days 50) 60 4 "analyzed";
                 Sample.session 2 1 (timedelta_days 90) 60 1 "analyzed" ]
       Sample.alice (timedelta_days 100) (timedelta_days 100))
  = Some (Float 75%float)
  /\ filler_improvement_percent
       (analytics [ Sample.session 1 1 (timedelta_days 50) 60 0 "analyzed";
                    Sample.session 2 1 (timedelta_days 90) 60 1 "analyzed" ]
          Sample.alice (timedelta_days 100) (timedelta_days 100))
     = None.
Proof. split; reflexivity. Qed.

(** A direct edit that validates stamps the session and keeps its keys. *)
Lemma update_stamps db u flt key partial data now r db' :
  update db u flt key partial data now = (Ok HTTP_200_OK r, db') ->
  updated_at r = now /\ id r = key /\ user r = pk u.
Proof.
  unfold update. pose proof (get_object_cases db u flt key) as H.
  destruct (get_object db u flt key) as [obj| |]; try discriminate.
  destruct (SpeechSessionSerializer.is_valid partial data); [|discriminate].
  intros [= <- _]. destruct H as (_ & Hid & Hu & _). auto.
Qed.

(** * Further properties *)

(** ** Analytics *)

Lemma get_queryset_owner db u : get_queryset db u = owner_sessions db (pk u).
Proof.
  unfold get_queryset, owner_sessions, qs_filter. apply filter_ext. intros s.
  apply eq_true_iff_eq. now rewrite Z.eqb_eq, bool_decide_eq_true.
Qed.

Lemma get_queryset_nil db u :
  (forall s, In s db -> user s <> pk u) -> get_queryset db u = [].
Proof.
  intros H. induction db as [|s db IH]; [reflexivity|]. simpl.
  destruct (user s =? pk u) eqn:Hu.
  - apply Z.eqb_eq in Hu. exfalso. apply (H s); [now left|exact Hu].
  - apply IH. intros x Hx. apply H. now right.
Qed.

(** X1: for an owner without sessions the analytics action answers 200 with
    zero counts, zero averages, no status and no [improvement_metrics]. *)
Theorem analytics_without_sessions (db : Store) (u : User) (now1 now2 : Z) :
  (forall s, In s db -> user s <> pk u) ->
  analytics db u now1 now2
  = Ok 200 {| total_sessions := 0;
              total_duration := 0;
              average_duration := Int 0;
              total_filler_words := 0;
              average_filler_rate := Int 0;
              sessions_by_status := ∅;
              recent_sessions_count := 0;
              improvement_metrics := None |}.
Proof. intros H. unfold analytics. now rewrite (get_queryset_nil db u H). Qed.

Lemma analytics_without_sessions_witness :
  analytics [Sample.session 4 2 0 7 100 "analyzed"] Sample.alice 5 6
  = Ok 200 {| total_sessions := 0;
              total_duration := 0;
              average_duration := Int 0;
              total_filler_words := 0;
              average_filler_rate := Int 0;
              sessions_by_status := ∅;
              recent_sessions_count := 0;
              improvement_metrics := None |}.
Proof.
  apply (analytics_without_sessions [Sample.session 4 2 0 7 100 "analyzed"] Sample.alice 5 6).
  intros s [<- | []]. simpl. lia.
Defined.

(** X2: a session of another owner, wherever it stands in the table, changes
    nothing of the owner's analytics. *)
Theorem analytics_ignores_other_owners
    (l1 l2 : Store) (s : SpeechSession) (u : User) (now1 now2 : Z) :
  user s <> pk u ->
  analytics (l1 ++ s :: l2) u now1 now2 = analytics (l1 ++ l2) u now1 now2.
Proof.
  intros Hu. unfold analytics.
  assert (Hq : get_queryset (l1 ++ s :: l2) u = get_queryset (l1 ++ l2) u).
  { unfold get_queryset, qs_filter. rewrite !List.filter_app. simpl.
    now rewrite (proj2 (Z.eqb_neq _ _) Hu). }
  now rewrite Hq.
Qed.

Lemma analytics_ignores_other_owners_witness :
  analytics (Sample.two_analyzed ++ Sample.session 4 2 0 7 100 "analyzed" :: []) Sample.alice 5 6
  = analytics (Sample.two_analyzed ++ []) Sample.alice 5 6.
Proof.
  apply (analytics_ignores_other_owners Sample.two_analyzed []
           (Sample.session 4 2 0 7 100 "analyzed") Sample.alice 5 6).
  simpl. lia.
Defined.

Lemma filter_length_le {A} (p : A -> bool) (l : list A) :
  (length (List.filter p l) <= length l)%nat.
Proof. induction l as [|x l IH]; simpl; [lia|]. destruct (p x); simpl; lia. Qed.

Lemma filter_filter_length_le {A} (p q : A -> bool) (l : list A) :
  (forall x, q x = true -> p x = true) ->
  (length (List.filter q l) <= length (List.filter p l))%nat.
Proof.
  intros H. induction l as [|x l IH]; simpl; [lia|].
  destruct (q x) eqn:Hq; [rewrite (H x Hq); simpl; lia|].
  destruct (p x); simpl; lia.
Qed.

(** X3: the counts and sums of the analytics action are those of the owner's
    sessions: [total_sessions] their number, [total_duration] the sum of
    their durations, [total_filler_words] the sum of [filler_count] over the
    analyzed ones, [recent_sessions_count] the number of those of the last 30
    days, which is never more than [total_sessions]. *)
Theorem analytics_totals (db : Store) (u : User) (now1 now2 : Z) :
  exists d,
    analytics db u now1 now2 = Ok 200 d
    /\ total_sessions d = Z.of_nat (length (owner_sessions db (pk u)))
    /\ total_duration d = total duration (owner_sessions db (pk u))
    /\ total_filler_words d = total filler_count (analyzed_sessions_of db (pk u))
    /\ recent_sessions_count d = Z.of_nat (length (recent_window db (pk u) now1))
    /\ 0 <= recent_sessions_count d <= total_sessions d.
Proof.
  assert (Hle : (length (recent_window db (pk u) now1)
                 <= length (owner_sessions db (pk u)))%nat).
  { apply filter_filter_length_le. intros x Hx.
    apply bool_decide_eq_true in Hx as [Hx _]. now apply bool_decide_eq_true. }
  assert (Han : qs_filter is_analyzed (get_queryset db u)
                = analyzed_sessions_of db (pk u)).
  { unfold get_queryset, analyzed_sessions_of. rewrite qs_filter_twice.
    apply filter_ext. intros s. apply eq_true_iff_eq.
    rewrite andb_true_iff, Z.eqb_eq, is_analyzed_spec, bool_decide_eq_true. tauto. }
  unfold analytics. rewrite recent_window_spec, Han, get_queryset_owner.
  destruct (count (owner_sessions db (pk u)) =? 0) eqn:Hc.
  - apply Z.eqb_eq in Hc. unfold count in Hc.
    assert (Ho : owner_sessions db (pk u) = []) by (apply length_zero_iff_nil; lia).
    assert (Hr : recent_window db (pk u) now1 = []).
    { apply length_zero_iff_nil. rewrite Ho in Hle. simpl in Hle. lia. }
    assert (Ha : analyzed_sessions_of db (pk u) = []).
    { rewrite <- Han, get_queryset_owner, Ho. reflexivity. }
    eexists. split; [reflexivity|]. cbn. rewrite Ho, Hr, Ha. cbn. lia.
  - eexists. split; [reflexivity|]. cbn. unfold Sum, count.
    repeat split; try lia.
    + destruct (owner_sessions db (pk u)); reflexivity.
    + destruct (analyzed_sessions_of db (pk u)); reflexivity.
Qed.

Lemma status_counts_lookup (qs : Store) (st : string) :
  status_counts qs !! st
  = if Z.of_nat (length (List.filter (fun s => bool_decide (status s = st)) qs)) =? 0
    then None
    else Some (Z.of_nat (length (List.filter (fun s => bool_decide (status s = st)) qs))).
Proof.
  induction qs as [|s qs IH]; [reflexivity|]. cbn [status_counts List.filter].
  destruct (decide (status s = st)) as [He|Hn].
  - rewrite He, lookup_insert_eq, IH, bool_decide_eq_true_2 by reflexivity.
    cbn [length].
    replace (Z.of_nat (S (length (List.filter (fun s0 => bool_decide (status s0 = st)) qs)))
             =? 0) with false by (symmetry; apply Z.eqb_neq; lia).
    destruct (Z.of_nat (length _) =? 0) eqn:Hz; cbn [default];
      unfold Datatypes.id; f_equal.
    + apply Z.eqb_eq in Hz. lia.
    + lia.
  - rewrite lookup_insert_ne by exact Hn.
    now rewrite IH, bool_decide_eq_false_2 by exact Hn.
Qed.

(** X4: [sessions_by_status] maps a status to the number of the owner's
    sessions with that status, and holds no key for a status none of them
    has. *)
Theorem sessions_by_status_lookup (db : Store) (u : User) (now1 now2 : Z) (st : string) :
  exists d,
    analytics db u now1 now2 = Ok 200 d
    /\ sessions_by_status d !! st
       = if count_status db (pk u) st =? 0 then None
         else Some (count_status db (pk u) st).
Proof.
  assert (Hf : List.filter (fun s => bool_decide (status s = st)) (get_queryset db u)
               = List.filter (fun s => bool_decide (user s = pk u /\ status s = st)) db).
  { unfold get_queryset. change (List.filter ?p (qs_filter ?q db))
      with (qs_filter p (qs_filter q db)). rewrite qs_filter_twice.
    apply filter_ext. intros s. apply eq_true_iff_eq.
    rewrite andb_true_iff, Z.eqb_eq, !bool_decide_eq_true. tauto. }
  unfold analytics, count_status.
  destruct (count (get_queryset db u) =? 0) eqn:Hc.
  - eexists. split; [reflexivity|]. cbn [sessions_by_status].
    rewrite <- Hf. apply Z.eqb_eq in Hc. unfold count in Hc.
    assert (Hq : get_queryset db u = []) by (apply length_zero_iff_nil; lia).
    rewrite Hq. reflexivity.
  - eexists. split; [reflexivity|]. cbn [sessions_by_status].
    now rewrite status_counts_lookup, Hf.
Qed.

Lemma analyzed_sum_total f owner db :
  analyzed_sum f owner db = total f (analyzed_sessions_of db owner).
Proof.
  unfold analyzed_sessions_of. induction db as [|s db IH]; [reflexivity|]. simpl.
  destruct (decide (user s = owner /\ status s = "analyzed")) as [H|H].
  - rewrite bool_decide_eq_true_2 by exact H. simpl. now rewrite IH.
  - rewrite bool_decide_eq_false_2 by exact H. now rewrite IH.
Qed.

(** X5: when exactly one session of the owner is analyzed, and it lasts
    more than 0 seconds, the [average_filler_rate] of the analytics action
    is the [filler_rate] of that session, rounded to two decimals. *)
Theorem single_analyzed_session_rate
    (db : Store) (u : User) (s : SpeechSession) (now1 now2 : Z) :
  analyzed_sessions_of db (pk u) = [s] ->
  0 < duration s ->
  reported_filler_rate (analytics db u now1 now2) = Some (round2 (filler_rate s)).
Proof.
  intros Hs Hd. rewrite reported_filler_rate_spec, !analyzed_sum_total, Hs.
  cbn [total]. rewrite !Z.add_0_r. unfold filler_rate.
  rewrite (proj2 (Z.ltb_lt _ _) Hd).
  replace (duration s =? 0) with false by (symmetry; apply Z.eqb_neq; lia).
  reflexivity.
Qed.

Lemma single_analyzed_session_rate_witness :
  reported_filler_rate
    (analytics [Sample.session 1 1 0 7 1 "analyzed"; Sample.session 3 1 0 7 100 "pending"]
       Sample.alice 5 6)
  = Some (round2 (filler_rate (Sample.session 1 1 0 7 1 "analyzed"))).
Proof.
  apply (single_analyzed_session_rate
           [Sample.session 1 1 0 7 1 "analyzed"; Sample.session 3 1 0 7 100 "pending"]
           Sample.alice (Sample.session 1 1 0 7 1 "analyzed") 5 6).
  - reflexivity.
  - simpl. lia.
Defined.

Lemma status_filter (st : string) (qs : Store) :
  qs_filter (fun s => String.eqb (status s) st) qs
  = List.filter (fun s => bool_decide (status s = st)) qs.
Proof.
  apply filter_ext. intros s. apply eq_true_iff_eq.
  now rewrite String.eqb_eq, bool_decide_eq_true.
Qed.

Lemma status_counts_default (qs : Store) (st : string) :
  default 0 (status_counts qs !! st)
  = count (qs_filter (fun s => String.eqb (status s) st) qs).
Proof.
  rewrite status_counts_lookup, status_filter. unfold count.
  destruct (Z.of_nat (length _) =? 0) eqn:Hz; [|reflexivity].
  apply Z.eqb_eq in Hz. now rewrite Hz.
Qed.

(** X6: the analytics page and the analytics action agree: for a viewer
    past the decorators and one reading of the clock, the page shows the
    [total_sessions], [total_duration], [total_filler_words] and
    [recent_sessions_count] of the action, and its three counts by status
    are the entries of [sessions_by_status], 0 for a missing one. *)
Theorem analytics_page_agrees (db : Store) (u : User) (now now2 : Z) :
  Views.decorators u = None ->
  exists ctx d,
    Views.session_analytics_view db u now
    = (Views.Render "speech_sessions/session_analytics.html" ctx, db)
    /\ analytics db u now now2 = Ok 200 d
    /\ Views.a_total_sessions ctx = total_sessions d
    /\ Views.a_total_duration ctx = total_duration d
    /\ Views.a_total_fillers ctx = total_filler_words d
    /\ Views.a_recent_sessions_count ctx = recent_sessions_count d
    /\ Views.a_analyzed_sessions_count ctx = default 0 (sessions_by_status d !! "analyzed")
    /\ Views.a_pending_sessions_count ctx = default 0 (sessions_by_status d !! "pending")
    /\ Views.a_archived_sessions_count ctx = default 0 (sessions_by_status d !! "archived").
Proof.
  intros Hg. unfold Views.session_analytics_view, Views.decorated. rewrite Hg.
  fold (get_queryset db u). unfold analytics.
  destruct (count (get_queryset db u) =? 0) eqn:Hc.
  - apply Z.eqb_eq in Hc. unfold count in Hc.
    assert (Hq : get_queryset db u = []) by (apply length_zero_iff_nil; lia).
    rewrite Hq. do 2 eexists. repeat split.
  - do 2 eexists. split; [reflexivity|]. split; [reflexivity|].
    cbn. rewrite !status_counts_default. unfold Sum, is_analyzed.
    repeat split.
    + destruct (get_queryset db u); [discriminate|reflexivity].
    + destruct (qs_filter _ (get_queryset db u)); reflexivity.
Qed.

Lemma analytics_page_agrees_witness :
  exists ctx d,
    Views.session_analytics_view Sample.db Sample.alice 5
    = (Views.Render "speech_sessions/session_analytics.html" ctx, Sample.db)
    /\ analytics Sample.db Sample.alice 5 6 = Ok 200 d
    /\ Views.a_total_sessions ctx = total_sessions d
    /\ Views.a_total_duration ctx = total_duration d
    /\ Views.a_total_fillers ctx = total_filler_words d
    /\ Views.a_recent_sessions_count ctx = recent_sessions_count d
    /\ Views.a_analyzed_sessions_count ctx = default 0 (sessions_by_status d !! "analyzed")
    /\ Views.a_pending_sessions_count ctx = default 0 (sessions_by_status d !! "pending")
    /\ Views.a_archived_sessions_count ctx = default 0 (sessions_by_status d !! "archived").
Proof. apply (analytics_page_agrees Sample.db Sample.alice 5 6). reflexivity. Defined.

(** ** Direct edits *)

Lemma is_valid_refused partial d :
  refused partial d -> SpeechSessionSerializer.is_valid partial d = None.
Proof.
  intros Hr.
  assert (Hrun :
    (negb partial && negb (bool_decide (is_Some (SpeechSessionSerializer.d_duration d)))
     = true)
    \/ SpeechSessionSerializer.run SpeechSessionSerializer.validate_duration
         (SpeechSessionSerializer.d_duration d) = None
    \/ SpeechSessionSerializer.run SpeechSessionSerializer.validate_filler_count
         (SpeechSessionSerializer.d_filler_count d) = None
    \/ SpeechSessionSerializer.run SpeechSessionSerializer.validate_status
         (SpeechSessionSerializer.d_status d) = None
    \/ SpeechSessionSerializer.run SpeechSessionSerializer.validate_confidence_score
         (SpeechSessionSerializer.d_confidence_score d) = None).
  { destruct Hr as [(z & Hz & Hle) | [(z & Hz & Hlt) | [(x & Hx & Hr)
                    | [(st & Hst & Hn) | [-> Hd]]]]].
    - right. left. rewrite Hz. cbn.
      unfold SpeechSessionSerializer.validate_duration.
      now rewrite (proj2 (Z.leb_le _ _) Hle).
    - right. right. left. rewrite Hz. cbn.
      unfold SpeechSessionSerializer.validate_filler_count.
      now rewrite (proj2 (Z.ltb_lt _ _) Hlt).
    - right. right. right. right. rewrite Hx. cbn.
      destruct Hr as [-> | ->]; [reflexivity|now rewrite orb_true_r].
    - right. right. right. left. rewrite Hst.
      unfold SpeechSessionSerializer.run, SpeechSessionSerializer.validate_status.
      destruct (existsb _ _) eqn:He; [|reflexivity].
      apply existsb_exists in He as (c & Hc & He). apply String.eqb_eq in He.
      now subst c.
    - left. now rewrite Hd. }
  unfold SpeechSessionSerializer.is_valid.
  destruct Hrun as [-> | Hrun]; [reflexivity|].
  destruct (negb partial && _); [reflexivity|].
  destruct Hrun as [-> | Hrun]; [reflexivity|].
  destruct (SpeechSessionSerializer.run SpeechSessionSerializer.validate_duration _);
    [|reflexivity].
  destruct Hrun as [-> | Hrun]; [reflexivity|].
  destruct (SpeechSessionSerializer.run SpeechSessionSerializer.validate_filler_count _);
    [|reflexivity].
  destruct Hrun as [-> | ->]; [reflexivity|].
  now destruct (SpeechSessionSerializer.run SpeechSessionSerializer.validate_status _).
Qed.

(** X7: an update whose body holds a duration that is not positive, a
    negative filler count, a score below 0 or above 1, a status that is no
    choice, or (for PUT) no duration writes nothing at all, also of the
    fields of the body that are valid; the answer is 400, or 404 when the
    session is not the actor's. *)
Theorem update_refused_is_atomic
    (db : Store) (u : User) (flt : SpeechSession -> bool) (key : Z)
    (partial : bool) (data : SpeechSessionSerializer.Data) (now : Z) :
  refused partial data ->
  snd (update db u flt key partial data now) = db
  /\ (status_code (fst (update db u flt key partial data now)) = 400
      \/ status_code (fst (update db u flt key partial data now)) = 404).
Proof.
  intros Hr. unfold update. rewrite (is_valid_refused _ _ Hr).
  pose proof (get_object_cases db u flt key) as H.
  destruct (get_object db u flt key); [| |contradiction]; split; auto.
Qed.

Lemma update_refused_is_atomic_witness :
  snd (update Sample.db Sample.alice Sample.no_backends 1 true Sample.negative_fillers 9)
  = Sample.db
  /\ (status_code
        (fst (update Sample.db Sample.alice Sample.no_backends 1 true
                Sample.negative_fillers 9)) = 400
      \/ status_code
           (fst (update Sample.db Sample.alice Sample.no_backends 1 true
                   Sample.negative_fillers 9)) = 404).
Proof.
  apply (update_refused_is_atomic Sample.db Sample.alice Sample.no_backends 1 true
           Sample.negative_fillers 9).
  right. left. exists (-1). split; [reflexivity|lia].
Defined.

Lemma is_valid_accepted partial d v :
  SpeechSessionSerializer.is_valid partial d = Some v ->
  (forall z, SpeechSessionSerializer.d_duration v = Some z -> 0 < z)
  /\ (forall z, SpeechSessionSerializer.d_filler_count v = Some z -> 0 <= z)
  /\ (forall x, SpeechSessionSerializer.d_confidence_score v = Some (Some x) ->
        PrimFloat.ltb x 0 = false /\ PrimFloat.ltb 1 x = false)
  /\ (forall st, SpeechSessionSerializer.d_status v = Some st ->
        In st SpeechSessionSerializer.STATUS_CHOICES).
Proof.
  unfold SpeechSessionSerializer.is_valid, SpeechSessionSerializer.run.
  destruct (negb partial && _); [discriminate|].
  destruct (SpeechSessionSerializer.d_duration d) as [du|];
    [unfold SpeechSessionSerializer.validate_duration at 1;
     destruct (du <=? 0) eqn:Hdu|]; cbn [option_map mbind option_bind]; try discriminate;
  (destruct (SpeechSessionSerializer.d_filler_count d) as [fc|];
    [unfold SpeechSessionSerializer.validate_filler_count at 1;
     destruct (fc <? 0) eqn:Hfc|]; cbn [option_map mbind option_bind]; try discriminate);
  (destruct (SpeechSessionSerializer.d_status d) as [st|];
    [unfold SpeechSessionSerializer.validate_status at 1;
     destruct (existsb (String.eqb st) SpeechSessionSerializer.STATUS_CHOICES) eqn:Hst|];
    cbn [option_map mbind option_bind]; try discriminate);
  (destruct (SpeechSessionSerializer.d_confidence_score d) as [[x|]|];
    [unfold SpeechSessionSerializer.validate_confidence_score at 1;
     destruct (PrimFloat.ltb x 0 || PrimFloat.ltb 1 x) eqn:Hx| |];
    cbn [option_map mbind option_bind]; try discriminate);
  intros [= <-]; cbn;
  (split; [|split; [|split]]); intros ? [= <-] || intros ? [=];
  try (apply Z.leb_gt in Hdu; lia);
  try (apply Z.ltb_ge in Hfc; lia);
  try (apply orb_false_iff in Hx; tauto);
  try (apply existsb_exists in Hst as (c & Hc & He); apply String.eqb_eq in He;
       now subst c).
Qed.

(** *** Comparisons of floats *)

Lemma SFcompare_antisym (x y : spec_float) :
  SFcompare y x = option_map CompOpp (SFcompare x y).
Proof.
  destruct x as [sx|sx| |sx mx ex], y as [sy|sy| |sy my ey]; cbn;
    try reflexivity; try (destruct sx; reflexivity); try (destruct sy; reflexivity);
    try (destruct sx, sy; reflexivity).
  rewrite (Z.compare_antisym ey ex), !Pos.compare_cont_spec.
  rewrite (Pos.compare_antisym my mx).
  destruct sx, sy, (ey ?= ex), (Pos.compare my mx); reflexivity.
Qed.

Lemma ltb_asym (x y : float) : PrimFloat.ltb x y = true -> PrimFloat.ltb y x = false.
Proof.
  rewrite !ltb_spec. unfold SFltb. rewrite (SFcompare_antisym (Prim2SF x) (Prim2SF y)).
  now destruct (SFcompare (Prim2SF x) (Prim2SF y)) as [[]|].
Qed.

Lemma leb_not_ltb (x y : float) : PrimFloat.leb x y = true -> PrimFloat.ltb y x = false.
Proof.
  rewrite leb_spec, ltb_spec. unfold SFleb, SFltb.
  rewrite (SFcompare_antisym (Prim2SF x) (Prim2SF y)).
  now destruct (SFcompare (Prim2SF x) (Prim2SF y)) as [[]|].
Qed.

Lemma in_unit_interval_accepted (x : float) :
  in_unit_interval x = true -> PrimFloat.ltb x 0 = false /\ PrimFloat.ltb 1 x = false.
Proof.
  unfold in_unit_interval. intros H. apply andb_true_iff in H as [H0 H1].
  split; now apply leb_not_ltb.
Qed.

(** *** The bounds along the validated writes *)

Lemma save_Forall (P : SpeechSession -> Prop) obj now db :
  Forall P db -> P (stamp now obj) -> Forall P (save obj now db).
Proof.
  intros Hdb Hobj. unfold save. apply List.Forall_forall. intros x Hx.
  apply in_map_iff in Hx as (s & <- & Hs).
  destruct (id s =? id obj); [exact Hobj|].
  revert s Hs. now apply List.Forall_forall.
Qed.

Lemma qs_filter_Forall (P : SpeechSession -> Prop) p db :
  Forall P db -> Forall P (qs_filter p db).
Proof.
  intros H. apply List.Forall_forall. intros x Hx. apply in_qs_filter in Hx as [Hx _].
  revert x Hx. now apply List.Forall_forall.
Qed.

Lemma set_attrs_sound v obj partial d :
  SpeechSessionSerializer.is_valid partial d = Some v ->
  sound obj -> sound (SpeechSessionSerializer.set_attrs v obj).
Proof.
  intros Hv [[Hf Hd] Hs]. destruct (is_valid_accepted _ _ _ Hv) as (Hdu & Hfc & Hcs & _).
  unfold sound, counted, score_accepted. cbn.
  destruct (SpeechSessionSerializer.d_duration v) as [du|] eqn:E1,
           (SpeechSessionSerializer.d_filler_count v) as [fc|] eqn:E2,
           (SpeechSessionSerializer.d_confidence_score v) as [[x|]|] eqn:E3; cbn;
    unfold Datatypes.id;
    repeat split;
    try (now apply Hdu); try (now apply Hfc); try (now apply Hcs);
    try assumption; try exact Hs.
Qed.

Lemma simulated_sound s : 0 < duration s -> sound (simulated s).
Proof. intros H. repeat split; cbn; try lia. Qed.

Section Bounds.

Variable hash : string -> Z.
Variable strftime : Z -> string.

Lemma reanalyzed_sound session now :
  sound session -> sound (reanalyzed hash strftime session now).
Proof.
  intros [[Hf Hd] _]. split; [split|].
  - cbn. lia.
  - exact Hd.
  - unfold score_accepted. cbn [confidence_score reanalyzed].
    apply in_unit_interval_accepted, clamp_in_unit_interval.
Qed.

(** X8: the writes that pass through the serializer, re-analysis, creation
    and deletion keep the bounds of the data model on the whole table: if
    every stored session has [filler_count >= 0], [duration > 0] and a
    score that is unset or neither below 0 nor above 1, so has every stored
    session afterwards, whoever asks and whatever the request holds. *)
Theorem validated_writes_keep_bounds
    (db : Store) (u : User) (flt : SpeechSession -> bool) (key : Z)
    (partial : bool) (data : SpeechSessionSerializer.Data)
    (cdata : SpeechSessionCreateSerializer.Data) (new_id : Z) (t : InsertClock)
    (now now' : Z) :
  Forall sound db ->
  Forall sound (snd (dispatch u db (update db u flt key partial data now)))
  /\ Forall sound (snd (dispatch u db (destroy db u flt key)))
  /\ Forall sound (snd (dispatch u db (reanalyze hash strftime db u flt key now now')))
  /\ Forall sound (snd (dispatch u db (create db u cdata new_id t now'))).
Proof.
  intros Hdb. unfold dispatch.
  destruct (check_permissions u) as [[code detail]|]; [repeat split; exact Hdb|].
  pose proof (get_object_cases db u flt key) as Hobj.
  assert (Hin : forall obj, In obj db -> sound obj)
    by (now apply List.Forall_forall).
  repeat split.
  - unfold update. destruct (get_object db u flt key) as [obj| |]; try exact Hdb.
    destruct (SpeechSessionSerializer.is_valid partial data) as [v|] eqn:Hv;
      [|exact Hdb].
    apply save_Forall; [exact Hdb|].
    apply (set_attrs_sound v obj partial data Hv). apply Hin, Hobj.
  - unfold destroy. destruct (get_object db u flt key) as [obj| |]; try exact Hdb.
    now apply qs_filter_Forall.
  - unfold reanalyze. destruct (get_object db u flt key) as [obj| |]; try exact Hdb.
    destruct (negb (has_audio obj)); [exact Hdb|].
    apply save_Forall; [exact Hdb|]. apply reanalyzed_sound, Hin, Hobj.
  - unfold create, SpeechSessionCreateSerializer.is_valid.
    destruct (SpeechSessionCreateSerializer.d_duration cdata) as [dur|]; [|exact Hdb].
    cbn [mbind option_bind]. unfold SpeechSessionCreateSerializer.validate_duration.
    destruct (dur <=? 0) eqn:Hd; [exact Hdb|]. apply Z.leb_gt in Hd.
    unfold SpeechSessionCreateSerializer.create.
    assert (Hnew : sound (SpeechSessionCreateSerializer.objects_create
                            new_id (pk u) dur cdata t)).
    { repeat split; cbn; lia. }
    assert (Hdb1 : Forall sound
                     (db ++ [SpeechSessionCreateSerializer.objects_create
                               new_id (pk u) dur cdata t])).
    { apply Forall_app. split; [exact Hdb|]. now constructor. }
    destruct (has_audio _); [|exact Hdb1].
    cbn [snd]. apply save_Forall; [exact Hdb1|]. now apply simulated_sound.
Qed.

End Bounds.

Lemma validated_writes_keep_bounds_witness :
  Forall sound (snd (dispatch Sample.alice Sample.db
                       (update Sample.db Sample.alice Sample.no_backends 1 true
                          Sample.archive_patch 9)))
  /\ Forall sound (snd (dispatch Sample.alice Sample.db
                          (destroy Sample.db Sample.alice Sample.no_backends 1)))
  /\ Forall sound (snd (dispatch Sample.alice Sample.db
                          (reanalyze (fun _ => 3) (fun _ => "2025-01-01 00:00")
                             Sample.db Sample.alice Sample.no_backends 1 9 10)))
  /\ Forall sound (snd (dispatch Sample.alice Sample.db
                          (create Sample.db Sample.alice Sample.upload 7
                             Sample.noon 10))).
Proof.
  apply (validated_writes_keep_bounds (fun _ => 3) (fun _ => "2025-01-01 00:00")
           Sample.db Sample.alice Sample.no_backends 1 true Sample.archive_patch
           Sample.upload 7 Sample.noon 9 10).
  repeat constructor; simpl; lia.
Defined.

(** ** Saving and deleting rows *)

Lemma save_map_id obj now db : map id (save obj now db) = map id db.
Proof.
  unfold save. rewrite map_map. apply map_ext_in. intros s _.
  destruct (id s =? id obj) eqn:He; [|reflexivity].
  apply Z.eqb_eq in He. now rewrite He.
Qed.

Lemma save_In_other obj now db s :
  In s db -> id s <> id obj -> In s (save obj now db).
Proof.
  intros Hin Hne. unfold save. apply in_map_iff. exists s. split; [|exact Hin].
  now rewrite (proj2 (Z.eqb_neq _ _) Hne).
Qed.

Lemma save_In_self obj0 obj now db :
  In obj0 db -> id obj0 = id obj -> In (stamp now obj) (save obj now db).
Proof.
  intros Hin He. unfold save. apply in_map_iff. exists obj0. split; [|exact Hin].
  now rewrite (proj2 (Z.eqb_eq _ _) He).
Qed.

Lemma NoDup_map_id_filter (p : SpeechSession -> bool) (db : Store) :
  List.NoDup (map id db) -> List.NoDup (map id (List.filter p db)).
Proof.
  induction db as [|s db IH]; simpl; [intros; constructor|].
  intros Hnd. inversion Hnd as [|? ? Hx Hnd']; subst.
  destruct (p s); [|now apply IH]. simpl. constructor; [|now apply IH].
  intros Hin. apply Hx. apply in_map_iff in Hin as (x & Hid & Hxin).
  apply filter_In in Hxin as [Hxin _]. apply in_map_iff. now exists x.
Qed.

Lemma delete_In obj db x : In x (delete obj db) <-> In x db /\ id x <> id obj.
Proof.
  unfold delete. rewrite in_qs_filter, negb_true_iff, Z.eqb_neq. tauto.
Qed.

Lemma delete_length obj db :
  List.NoDup (map id db) -> In obj db ->
  (length (delete obj db) + 1 = length db)%nat.
Proof.
  unfold delete, qs_filter. induction db as [|s db IH]; simpl; [tauto|].
  intros Hnd Hin. inversion Hnd as [|? ? Hx Hnd']; subst.
  destruct (id s =? id obj) eqn:He; simpl.
  - apply Z.eqb_eq in He.
    assert (Hall : List.filter (fun s0 => negb (id s0 =? id obj)) db = db).
    { clear IH Hin Hnd. induction db as [|y db IHd]; [reflexivity|]. simpl.
      inversion Hnd' as [|? ? Hy Hnd'']; subst.
      destruct (id y =? id obj) eqn:Hy'.
      - apply Z.eqb_eq in Hy'. exfalso. apply Hx. left. congruence.
      - simpl. f_equal. apply IHd; [|exact Hnd''].
        intros Hin. apply Hx. now right. }
    rewrite Hall. lia.
  - destruct Hin as [-> | Hin]; [rewrite Z.eqb_refl in He; discriminate|].
    rewrite <- (IH Hnd' Hin). lia.
Qed.

Lemma retrieve_own db u flt s :
  List.NoDup (map id db) -> In s db -> user s = pk u -> flt s = true ->
  retrieve db u flt (id s) = Ok 200 s.
Proof.
  intros Hnd Hin Hu Hf. unfold retrieve.
  now rewrite (get_object_own db u flt s Hnd Hin Hu Hf).
Qed.

(** X9: after an accepted update, retrieving the same key gives back the
    session the update answered; the table keeps its keys, every other
    session stays as it was, and of the session edited the key, the owner
    and the creation timestamps are kept while [updated_at] is the instant
    of the save. *)
Theorem update_then_retrieve
    (db db' : Store) (u : User) (flt : SpeechSession -> bool) (key : Z)
    (partial : bool) (data : SpeechSessionSerializer.Data) (now : Z)
    (r : SpeechSession) :
  List.NoDup (map id db) ->
  update db u flt key partial data now = (Ok 200 r, db') ->
  (flt r = true -> retrieve db' u flt key = Ok 200 r)
  /\ map id db' = map id db
  /\ (forall s, In s db -> id s <> key -> In s db')
  /\ In r db'
  /\ exists old,
       In old db /\ id old = key /\ user old = pk u
       /\ id r = key /\ user r = pk u /\ date r = date old
       /\ created_at r = created_at old /\ updated_at r = now.
Proof.
  intros Hnd. unfold update. pose proof (get_object_cases db u flt key) as Hobj.
  destruct (get_object db u flt key) as [obj| |]; try discriminate.
  destruct (SpeechSessionSerializer.is_valid partial data) as [v|]; [|discriminate].
  intros [= <- <-]. destruct Hobj as (Hin & Hid & Hu & _).
  assert (Hid' : id obj = id (SpeechSessionSerializer.set_attrs v obj)) by reflexivity.
  split; [|split; [|split; [|split]]].
  - intros Hf. rewrite <- Hid.
    apply (retrieve_own _ u flt (stamp now (SpeechSessionSerializer.set_attrs v obj))).
    + now rewrite save_map_id.
    + now apply (save_In_self obj).
    + exact Hu.
    + exact Hf.
  - apply save_map_id.
  - intros s Hs Hne. apply save_In_other; [exact Hs|]. cbn. congruence.
  - now apply (save_In_self obj).
  - exists obj. repeat split; assumption.
Qed.

Lemma update_then_retrieve_witness :
  (Sample.no_backends
     (stamp 9 (SpeechSessionSerializer.set_attrs Sample.archive_patch
                 (Sample.session 1 1 0 60 6 "analyzed"))) = true ->
   retrieve (save (SpeechSessionSerializer.set_attrs Sample.archive_patch
                     (Sample.session 1 1 0 60 6 "analyzed")) 9 Sample.db)
     Sample.alice Sample.no_backends 1
   = Ok 200 (stamp 9 (SpeechSessionSerializer.set_attrs Sample.archive_patch
                        (Sample.session 1 1 0 60 6 "analyzed"))))
  /\ map id (save (SpeechSessionSerializer.set_attrs Sample.archive_patch
                     (Sample.session 1 1 0 60 6 "analyzed")) 9 Sample.db)
     = map id Sample.db
  /\ (forall s, In s Sample.db -> id s <> 1 ->
        In s (save (SpeechSessionSerializer.set_attrs Sample.archive_patch
                      (Sample.session 1 1 0 60 6 "analyzed")) 9 Sample.db))
  /\ In (stamp 9 (SpeechSessionSerializer.set_attrs Sample.archive_patch
                    (Sample.session 1 1 0 60 6 "analyzed")))
        (save (SpeechSessionSerializer.set_attrs Sample.archive_patch
                 (Sample.session 1 1 0 60 6 "analyzed")) 9 Sample.db)
  /\ exists old,
       In old Sample.db /\ id old = 1 /\ user old = pk Sample.alice
       /\ id (stamp 9 (SpeechSessionSerializer.set_attrs Sample.archive_patch
                         (Sample.session 1 1 0 60 6 "analyzed"))) = 1
       /\ user (stamp 9 (SpeechSessionSerializer.set_attrs Sample.archive_patch
                           (Sample.session 1 1 0 60 6 "analyzed"))) = pk Sample.alice
       /\ date (stamp 9 (SpeechSessionSerializer.set_attrs Sample.archive_patch
                           (Sample.session 1 1 0 60 6 "analyzed"))) = date old
       /\ created_at (stamp 9 (SpeechSessionSerializer.set_attrs Sample.archive_patch
                                 (Sample.session 1 1 0 60 6 "analyzed")))
          = created_at old
       /\ updated_at (stamp 9 (SpeechSessionSerializer.set_attrs Sample.archive_patch
                                 (Sample.session 1 1 0 60 6 "analyzed"))) = 9.
Proof.
  apply (update_then_retrieve Sample.db _ Sample.alice Sample.no_backends 1 true
           Sample.archive_patch 9).
  - apply NoDup_ListNoDup. compute_done.
  - reflexivity.
Defined.

(** X10: deleting an own session answers 204 and removes that session and
    no other: the rows left are the rows of the other keys, one row fewer,
    and the key is not found afterwards. *)
Theorem destroy_removes_exactly
    (db : Store) (u : User) (flt : SpeechSession -> bool) (s : SpeechSession) :
  List.NoDup (map id db) -> In s db -> user s = pk u -> flt s = true ->
  exists db',
    destroy db u flt (id s) = (Ok 204 tt, db')
    /\ (forall x, In x db' <-> In x db /\ id x <> id s)
    /\ (length db' + 1 = length db)%nat
    /\ not_found (retrieve db' u flt (id s)).
Proof.
  intros Hnd Hin Hu Hf. exists (delete s db). unfold destroy.
  rewrite (get_object_own db u flt s Hnd Hin Hu Hf).
  split; [reflexivity|]. split; [intros x; apply delete_In|].
  split; [now apply delete_length|].
  unfold retrieve. pose proof (get_object_cases (delete s db) u flt (id s)) as H.
  destruct (get_object (delete s db) u flt (id s)) as [obj| |].
  - destruct H as (Hobj & Hid & _). apply delete_In in Hobj as [_ Hne]. contradiction.
  - split; reflexivity.
  - contradiction.
Qed.

Lemma destroy_removes_exactly_witness :
  exists db',
    destroy Sample.db Sample.alice Sample.no_backends 2 = (Ok 204 tt, db')
    /\ (forall x, In x db' <-> In x Sample.db /\ id x <> 2)
    /\ (length db' + 1 = length Sample.db)%nat
    /\ not_found (retrieve db' Sample.alice Sample.no_backends 2).
Proof.
  apply (destroy_removes_exactly Sample.db Sample.alice Sample.no_backends
           (Sample.session 2 1 0 120 3 "analyzed")).
  - apply NoDup_ListNoDup. compute_done.
  - simpl. auto.
  - reflexivity.
  - reflexivity.
Defined.

(** ** Re-analysis of a session with audio *)

Section ReanalyzeSuccess.

Variable hash : string -> Z.
Variable strftime : Z -> string.

(** X11: re-analysis of an own session with audio answers 200 with the
    session as stored: analyzed, stamped with the instant of the save,
    within the bounds of the data model, with a filler count that is never
    negative, no less than the old one minus 2 and no more than the old one
    plus 2 (or 0), and a pacing analysis that ends with the old one; keys,
    owner, duration, audio, transcription and
    creation timestamps are kept, and so is every other session. *)
Theorem reanalyze_with_audio
    (db : Store) (u : User) (flt : SpeechSession -> bool) (s : SpeechSession)
    (now now' : Z) :
  List.NoDup (map id db) -> In s db -> user s = pk u -> flt s = true ->
  has_audio s = true ->
  exists r db',
    reanalyze hash strftime db u flt (id s) now now' = (Ok 200 r, db')
    /\ In r db'
    /\ status r = "analyzed"
    /\ updated_at r = now'
    /\ within_bounds r = true
    /\ filler_count s - 2 <= filler_count r <= Z.max 0 (filler_count s + 2)
    /\ (exists note, pacing_analysis r = note +:+ pacing_analysis s)
    /\ (id r, user r, date r, duration r, audio_file r, transcription r, created_at r)
       = (id s, user s, date s, duration s, audio_file s, transcription s, created_at s)
    /\ map id db' = map id db
    /\ (forall x, In x db -> id x <> id s -> In x db').
Proof.
  intros Hnd Hin Hu Hf Ha. unfold reanalyze.
  rewrite (get_object_own db u flt s Hnd Hin Hu Hf), Ha. cbn [negb].
  do 2 eexists. split; [reflexivity|].
  pose proof (offset_range (hash (pretty (id s)))) as [_ Hr].
  split; [now apply (save_In_self s)|].
  split; [reflexivity|]. split; [reflexivity|].
  split; [apply reanalyzed_within_bounds|].
  split; [cbn [filler_count stamp reanalyzed]; lia|].
  split; [eexists; reflexivity|].
  split; [reflexivity|].
  split; [apply save_map_id|].
  intros x Hx Hne. now apply save_In_other.
Qed.

End ReanalyzeSuccess.

Lemma reanalyze_with_audio_witness :
  exists r db',
    reanalyze (fun _ => 3) (fun _ => "2025-01-01 00:00") [Sample.zero_confidence]
      Sample.alice Sample.no_backends 5 9 10 = (Ok 200 r, db')
    /\ In r db'
    /\ status r = "analyzed"
    /\ updated_at r = 10
    /\ within_bounds r = true
    /\ 4 - 2 <= filler_count r <= Z.max 0 (4 + 2)
    /\ (exists note, pacing_analysis r = note +:+ "Steady pace")
    /\ (id r, user r, date r, duration r, audio_file r, transcription r, created_at r)
       = (5, 1, 0, 30, Some "speech_sessions/2025/01/01/a.wav", "", 0)
    /\ map id db' = map id [Sample.zero_confidence]
    /\ (forall x, In x [Sample.zero_confidence] -> id x <> 5 -> In x db').
Proof.
  apply (reanalyze_with_audio (fun _ => 3) (fun _ => "2025-01-01 00:00")
           [Sample.zero_confidence] Sample.alice Sample.no_backends
           Sample.zero_confidence 9 10).
  - apply NoDup_ListNoDup. compute_done.
  - simpl. auto.
  - reflexivity.
  - reflexivity.
  - reflexivity.
Defined.

(** ** What no request does *)

Lemma map_if_id (sel : SpeechSession -> bool) (f : SpeechSession -> SpeechSession) db :
  (forall s, id (f s) = id s) ->
  map id (map (fun s => if sel s then f s else s) db) = map id db.
Proof.
  intros H. rewrite map_map. apply map_ext. intros s. now destruct (sel s).
Qed.

Lemma foreign_map_if o (sel : SpeechSession -> bool) (f : SpeechSession -> SpeechSession) db :
  (forall s, In s db -> sel s = true -> user s = o /\ user (f s) = o) ->
  foreign_sessions (map (fun s => if sel s then f s else s) db) o = foreign_sessions db o.
Proof.
  unfold foreign_sessions. induction db as [|s db IH]; [reflexivity|]. intros H. simpl.
  rewrite IH by (intros x Hx; apply H; now right).
  destruct (sel s) eqn:Hs; [|reflexivity].
  destruct (H s (or_introl eq_refl) Hs) as [Hu Hf].
  now rewrite !bool_decide_eq_false_2 by (intros Hn; contradiction).
Qed.

Lemma foreign_filter o (p : SpeechSession -> bool) db :
  (forall s, In s db -> p s = false -> user s = o) ->
  foreign_sessions (qs_filter p db) o = foreign_sessions db o.
Proof.
  unfold foreign_sessions, qs_filter. induction db as [|s db IH]; [reflexivity|].
  intros H. simpl. destruct (p s) eqn:Hp; simpl.
  - now rewrite IH by (intros x Hx; apply H; now right).
  - rewrite (bool_decide_eq_false_2 (user s <> o))
      by (intros Hn; apply Hn, (H s); [now left|exact Hp]).
    apply IH. intros x Hx. apply H. now right.
Qed.

Lemma foreign_app_own o db x :
  user x = o -> foreign_sessions (db ++ [x]) o = foreign_sessions db o.
Proof.
  intros Hx. unfold foreign_sessions. rewrite List.filter_app. simpl.
  rewrite bool_decide_eq_false_2 by (intros Hn; contradiction). apply app_nil_r.
Qed.

Lemma owned_key db o obj :
  List.NoDup (map id db) -> In obj db -> user obj = o ->
  forall s, In s db -> id s = id obj -> user s = o.
Proof.
  intros Hnd Hin Hu s Hs He. now rewrite (unique_id db s obj Hnd Hs Hin He).
Qed.

Lemma foreign_save o obj obj' now db :
  List.NoDup (map id db) -> In obj db -> user obj = o ->
  id obj' = id obj -> user obj' = o ->
  foreign_sessions (save obj' now db) o = foreign_sessions db o.
Proof.
  intros Hnd Hin Hu Hid Hu'. unfold save.
  apply (foreign_map_if o (fun s => id s =? id obj') (fun _ => stamp now obj')).
  intros s Hs He. apply Z.eqb_eq in He. split; [|exact Hu'].
  apply (owned_key db o obj Hnd Hin Hu s Hs). congruence.
Qed.

Lemma foreign_delete o obj db :
  List.NoDup (map id db) -> In obj db -> user obj = o ->
  foreign_sessions (delete obj db) o = foreign_sessions db o.
Proof.
  intros Hnd Hin Hu. unfold delete. apply foreign_filter.
  intros s Hs He. apply negb_false_iff, Z.eqb_eq in He.
  now apply (owned_key db o obj Hnd Hin Hu s Hs).
Qed.

Lemma get_object_or_404_cases db key u session :
  Views.get_object_or_404 db key u = Some session ->
  In session db /\ id session = key /\ user session = pk u.
Proof.
  unfold Views.get_object_or_404. intros H. apply find_some in H as [Hin Hp].
  apply andb_true_iff in Hp as [Hid Hu]. apply Z.eqb_eq in Hid, Hu. auto.
Qed.

Section Requests.

Variable hash : string -> Z.
Variable strftime : Z -> string.

(** One request of an actor leaves the sessions of everyone else as they
    are, and the keys of the table unique. *)
Lemma perform_step (w : Surface.Write) (u : User) (db : Store) :
  List.NoDup (map id db) -> Surface.fresh w db ->
  foreign_sessions (Surface.perform hash strftime w u db) (pk u)
  = foreign_sessions db (pk u)
  /\ List.NoDup (map id (Surface.perform hash strftime w u db)).
Proof.
  intros Hnd Hfresh. destruct w as [flt key partial data now|flt key|flt key now now'
                                   |ids updates|cdata new_id t now'|key method|method body];
    cbn [Surface.perform Surface.fresh] in *.
  - unfold dispatch. destruct (check_permissions u) as [[]|]; [now split|].
    unfold update. pose proof (get_object_cases db u flt key) as Hobj.
    destruct (get_object db u flt key) as [obj| |]; try now split.
    destruct (SpeechSessionSerializer.is_valid partial data) as [v|]; [|now split].
    destruct Hobj as (Hin & _ & Hu & _). cbn [snd]. split.
    + now apply (foreign_save (pk u) obj).
    + now rewrite save_map_id.
  - unfold dispatch. destruct (check_permissions u) as [[]|]; [now split|].
    unfold destroy. pose proof (get_object_cases db u flt key) as Hobj.
    destruct (get_object db u flt key) as [obj| |]; try now split.
    destruct Hobj as (Hin & _ & Hu & _). cbn [snd]. split.
    + now apply foreign_delete.
    + now apply NoDup_map_id_filter.
  - unfold dispatch. destruct (check_permissions u) as [[]|]; [now split|].
    unfold reanalyze. pose proof (get_object_cases db u flt key) as Hobj.
    destruct (get_object db u flt key) as [obj| |]; try now split.
    destruct (negb (has_audio obj)); [now split|].
    destruct Hobj as (Hin & _ & Hu & _). cbn [snd]. split.
    + now apply (foreign_save (pk u) obj).
    + now rewrite save_map_id.
  - unfold dispatch. destruct (check_permissions u) as [[]|]; [now split|].
    rewrite bulk_update_unfold.
    destruct (is_nil ids || bool_decide (updates = ∅)); [now split|].
    destruct (negb (exists_ _)); [now split|].
    destruct (negb (bool_decide _)); [now split|].
    destruct (prepare updates) as [a|]; [|now split]. cbn [snd]. split.
    + apply foreign_map_if. intros s _ Hs. apply bool_decide_eq_true in Hs. tauto.
    + now rewrite map_if_id.
  - unfold dispatch. destruct (check_permissions u) as [[]|]; [now split|].
    unfold create. destruct (SpeechSessionCreateSerializer.is_valid cdata) as [dur|];
      [|now split].
    unfold SpeechSessionCreateSerializer.create.
    set (session := SpeechSessionCreateSerializer.objects_create new_id (pk u) dur cdata t).
    assert (Hnd1 : List.NoDup (map id (db ++ [session]))).
    { rewrite map_app. apply NoDup_ListNoDup, NoDup_app. repeat split.
      - now apply NoDup_ListNoDup.
      - intros x Hx Hx'. apply list_elem_of_In in Hx, Hx'.
        destruct Hx' as [<- | []]. contradiction.
      - apply NoDup_ListNoDup. repeat constructor. intros []. }
    destruct (has_audio session); cbn [snd]; split.
    + rewrite (foreign_save (pk u) session); try reflexivity; try exact Hnd1.
      * now apply foreign_app_own.
      * apply in_or_app. right. now left.
    + now rewrite save_map_id.
    + now apply foreign_app_own.
    + exact Hnd1.
  - unfold Views.session_delete_view, Views.decorated.
    destruct (Views.decorators u); [now split|].
    destruct (Views.get_object_or_404 db key u) as [session|] eqn:Hs; [|now split].
    apply get_object_or_404_cases in Hs as (Hin & _ & Hu).
    destruct method; [now split|]. cbn [snd]. split.
    + now apply foreign_delete.
    + now apply NoDup_map_id_filter.
  - unfold Views.session_bulk_action_view, Views.decorated.
    destruct (Views.decorators u); [now split|].
    destruct method; [now split|]. destruct body as [[action ids]|]; [|now split].
    destruct (String.eqb action "" || is_nil ids); [now split|].
    destruct (count _ =? 0); [now split|].
    assert (Hsel : forall s, id_in ids s && (user s =? pk u) = true -> user s = pk u).
    { intros s Hs. apply andb_true_iff in Hs as [_ Hs]. now apply Z.eqb_eq in Hs. }
    destruct (String.eqb action "delete"); [cbn [snd]; split|].
    + apply foreign_filter. intros s _ Hs. apply negb_false_iff in Hs. now apply Hsel.
    + now apply NoDup_map_id_filter.
    + destruct (String.eqb action "archive"); [cbn [snd QuerySet_update]; split|].
      * apply foreign_map_if. intros s _ Hs. split; now apply Hsel.
      * now rewrite map_if_id.
      * destruct (String.eqb action "mark_analyzed"); [cbn [snd QuerySet_update]|];
          split; try assumption; try reflexivity.
        -- apply foreign_map_if. intros s _ Hs. split; now apply Hsel.
        -- now rewrite map_if_id.
Qed.

Lemma owner_of_foreign db o o' :
  o <> o' ->
  owner_sessions db o
  = List.filter (fun s => bool_decide (user s = o)) (foreign_sessions db o').
Proof.
  intros Hne. unfold owner_sessions, foreign_sessions.
  induction db as [|s db IH]; [reflexivity|]. simpl.
  destruct (decide (user s = o)) as [He|Hn].
  - rewrite (bool_decide_eq_true_2 (user s = o)) by exact He.
    rewrite (bool_decide_eq_true_2 (user s <> o')) by congruence.
    simpl. rewrite (bool_decide_eq_true_2 (user s = o)) by exact He. now rewrite IH.
  - rewrite (bool_decide_eq_false_2 (user s = o)) by exact Hn.
    destruct (bool_decide (user s <> o')); [simpl|exact IH].
    now rewrite (bool_decide_eq_false_2 (user s = o)) by exact Hn.
Qed.

(** X12: whatever sequence of writing requests other actors send, on either
    surface and with any content, the sessions of an owner stay exactly as
    they are, in number, order and every field. *)
Theorem run_leaves_owner
    (ws : list (User * Surface.Write)) (db : Store) (owner : Z) :
  List.NoDup (map id db) ->
  Surface.admissible hash strftime ws db ->
  (forall u w, In (u, w) ws -> pk u <> owner) ->
  owner_sessions (Surface.run hash strftime ws db) owner = owner_sessions db owner.
Proof.
  revert db. induction ws as [|[u w] ws IH]; intros db Hnd Hadm Hws; [reflexivity|].
  cbn [Surface.run]. destruct Hadm as [Hfresh Hadm].
  destruct (perform_step w u db Hnd Hfresh) as [Hf Hnd'].
  assert (Hne : owner <> pk u).
  { intros He. apply (Hws u w); [now left|now symmetry]. }
  rewrite IH; [|exact Hnd'|exact Hadm|intros u' w' Hin; apply (Hws u' w'); now right].
  now rewrite !(owner_of_foreign _ owner (pk u) Hne), Hf.
Qed.

(** X13: the primary keys of the table stay unique under any sequence of
    writing requests in which every creation is served with a key that is
    not in use. *)
Theorem run_keeps_keys_unique (ws : list (User * Surface.Write)) (db : Store) :
  List.NoDup (map id db) ->
  Surface.admissible hash strftime ws db ->
  List.NoDup (map id (Surface.run hash strftime ws db)).
Proof.
  revert db. induction ws as [|[u w] ws IH]; intros db Hnd Hadm; [exact Hnd|].
  cbn [Surface.run]. destruct Hadm as [Hfresh Hadm].
  apply IH; [|exact Hadm]. now apply perform_step.
Qed.

End Requests.

Lemma run_leaves_owner_witness :
  owner_sessions
    (Surface.run (fun _ => 3) (fun _ => "2025-01-01 00:00") Sample.requests_of_bob Sample.db)
    1
  = owner_sessions Sample.db 1.
Proof.
  apply (run_leaves_owner (fun _ => 3) (fun _ => "2025-01-01 00:00")
           Sample.requests_of_bob Sample.db 1).
  - apply NoDup_ListNoDup. compute_done.
  - vm_compute. intuition discriminate.
  - intros u w Hin. simpl in Hin.
    destruct Hin as [[= <- _] | [[= <- _] | [[= <- _] | [[= <- _] | []]]]]; simpl; lia.
Defined.

Lemma run_keeps_keys_unique_witness :
  List.NoDup
    (map id (Surface.run (fun _ => 3) (fun _ => "2025-01-01 00:00")
               Sample.requests_of_bob Sample.db)).
Proof.
  apply (run_keeps_keys_unique (fun _ => 3) (fun _ => "2025-01-01 00:00")
           Sample.requests_of_bob Sample.db).
  - apply NoDup_ListNoDup. compute_done.
  - vm_compute. intuition discriminate.
Defined.

Example requests_of_bob_sample :
  map (fun s => (id s, user s, status s))
      (Surface.run (fun _ => 3) (fun _ => "2025-01-01 00:00") Sample.requests_of_bob Sample.db)
  = [(1, 1, "analyzed"); (2, 1, "analyzed"); (3, 1, "pending"); (7, 2, "analyzed")].
Proof. reflexivity. Qed.

(** ** Bulk update, again *)

Lemma assign_twice a s : assign a (assign a s) = assign a s.
Proof.
  destruct a as [[st|] [pa|] [fc|] [cs|]]; reflexivity.
Qed.

Lemma reached_assign u ids a s : reached u ids (assign a s) = reached u ids s.
Proof. reflexivity. Qed.

Lemma filter_map_if (sel : SpeechSession -> bool) (f : SpeechSession -> SpeechSession) db :
  (forall s, sel (f s) = sel s) ->
  qs_filter sel (map (fun s => if sel s then f s else s) db)
  = map f (qs_filter sel db).
Proof.
  intros H. induction db as [|s db IH]; [reflexivity|]. simpl.
  destruct (sel s) eqn:Hs; simpl.
  - now rewrite H, Hs, IH.
  - now rewrite Hs, IH.
Qed.

Lemma map_if_twice (sel : SpeechSession -> bool) (f : SpeechSession -> SpeechSession) db :
  (forall s, sel (f s) = sel s) -> (forall s, f (f s) = f s) ->
  map (fun s => if sel s then f s else s) (map (fun s => if sel s then f s else s) db)
  = map (fun s => if sel s then f s else s) db.
Proof.
  intros Hsel Hf. rewrite map_map. apply map_ext. intros s.
  destruct (sel s) eqn:Hs; [now rewrite Hsel, Hs, Hf|now rewrite Hs].
Qed.

(** X14: a bulk update is idempotent: sent again on the table it left, the
    same request gets the same answer and leaves the same table. *)
Theorem bulk_update_idempotent
    (db : Store) (u : User) (ids : list Z) (updates : gmap string json) :
  bulk_update (snd (bulk_update db u ids updates)) u ids updates
  = bulk_update db u ids updates.
Proof.
  rewrite (bulk_update_unfold db).
  destruct (is_nil ids || bool_decide (updates = ∅)) eqn:H1;
    [cbn [snd]; now rewrite bulk_update_unfold, H1|].
  destruct (negb (exists_ (qs_filter (reached u ids) db))) eqn:H2;
    [cbn [snd]; now rewrite bulk_update_unfold, H1, H2|].
  destruct (negb (bool_decide (dom updates ∖ allowed_fields = ∅))) eqn:H3;
    [cbn [snd]; now rewrite bulk_update_unfold, H1, H2, H3|].
  destruct (prepare updates) as [a|] eqn:H4;
    [|cbn [snd]; now rewrite bulk_update_unfold, H1, H2, H3, H4].
  cbn [snd]. rewrite bulk_update_unfold, H1, H3, H4.
  rewrite (filter_map_if (reached u ids) (assign a)) by (intros; apply reached_assign).
  rewrite (map_if_twice (reached u ids) (assign a))
    by (intros; apply reached_assign || apply assign_twice).
  unfold count. rewrite length_map.
  destruct (qs_filter (reached u ids) db) eqn:Hq; [discriminate H2|]. reflexivity.
Qed.

(** X15: no bulk update, accepted or not, adds or removes a row or assigns
    a column outside its allow-list: key, owner, creation date, duration,
    audio file and transcription of every row are as before, row by row. *)
Theorem bulk_update_fixed_columns
    (db : Store) (u : User) (ids : list Z) (updates : gmap string json) :
  map fixed_columns (snd (bulk_update db u ids updates)) = map fixed_columns db.
Proof.
  rewrite bulk_update_unfold.
  repeat match goal with
         | |- context [if ?b then _ else _] => destruct b; try reflexivity
         end.
  destruct (prepare updates); [|reflexivity].
  cbn [snd]. rewrite map_map. apply map_ext. intros s. now destruct (reached u ids s).
Qed.

(** ** Bulk actions of the page surface *)




Example bulk_action_delete_sample :
  map id (snd (Views.session_bulk_action_view Sample.db Sample.alice Views.POST
                 (Some ("delete", [2; 4]))))
  = [1; 3; 4].
Proof. reflexivity. Qed.

(** ** Pages *)

Lemma chunks_concat {A} (n : nat) (l : list A) :
  (length l <= 10 * n)%nat ->
  concat (map (fun i => firstn 10 (skipn (10 * i) l)) (seq 0 n)) = l.
Proof.
  revert l. induction n as [|n IH]; intros l Hl.
  - destruct l; [reflexivity|simpl in Hl; lia].
  - cbn [seq map concat]. rewrite <- seq_shift, map_map.
    change (skipn (10 * 0) l) with l.
    rewrite (map_ext _ (fun i => firstn 10 (skipn (10 * i) (skipn 10 l)))).
    + rewrite IH by (rewrite length_skipn; lia). apply firstn_skipn.
    + intros i. rewrite skipn_skipn. do 2 f_equal. lia.
Qed.

Lemma num_pages_covers (n : nat) :
  (n <= 10 * Z.to_nat (Views.Paginator.num_pages 10 (Z.of_nat n)))%nat.
Proof.
  unfold Views.Paginator.num_pages.
  pose proof (Z.div_mod (Z.of_nat n + 10 - 1) 10 ltac:(lia)) as Hd.
  pose proof (Z.mod_pos_bound (Z.of_nat n + 10 - 1) 10 ltac:(lia)) as Hm.
  lia.
Qed.

(** X17: the pages of a list are a partition of it: pages 1 to [num_pages],
    one after the other, give the list back, row for row. *)
Theorem pages_partition (A : Type) (l : list A) :
  concat (map (Views.Paginator.page 10 l)
              (page_numbers (Views.Paginator.num_pages 10 (Z.of_nat (length l)))))
  = l.
Proof.
  unfold page_numbers. rewrite map_map.
  rewrite (map_ext _ (fun i => firstn 10 (skipn (10 * i) l))).
  - apply chunks_concat, num_pages_covers.
  - intros i. unfold Views.Paginator.page. do 2 f_equal. lia.
Qed.

Lemma num_pages_tight (n : Z) :
  0 < n -> (Views.Paginator.num_pages 10 n - 1) * 10 < n.
Proof.
  intros Hn. unfold Views.Paginator.num_pages.
  pose proof (Z.div_mod (n + 10 - 1) 10 ltac:(lia)) as Hd.
  pose proof (Z.mod_pos_bound (n + 10 - 1) 10 ltac:(lia)) as Hm.
  lia.
Qed.

(** X18: the page [get_page] gives for a list that is not empty is never
    empty and never longer than 10, whatever the page number: missing, not
    an integer, below 1 or beyond the last page. *)
Theorem get_page_never_empty (A : Type) (l : list A) (number : option Z) :
  l <> [] ->
  Views.Paginator.get_page 10 l number <> []
  /\ (length (Views.Paginator.get_page 10 l number) <= 10)%nat.
Proof.
  intros Hl. unfold Views.Paginator.get_page, Views.Paginator.page.
  pose proof (valid_number_range (Z.of_nat (length l)) number) as [Hr _].
  assert (Hpos : 0 < Z.of_nat (length l)) by (destruct l; [contradiction|simpl; lia]).
  pose proof (num_pages_tight _ Hpos) as Ht.
  set (n := Views.Paginator.valid_number 10 (Z.of_nat (length l)) number) in *.
  split; [|apply firstn_le_length].
  intros He. apply (f_equal (@length A)) in He.
  rewrite length_firstn, length_skipn in He. simpl length in He. lia.
Qed.

Lemma get_page_never_empty_witness :
  Views.Paginator.get_page 10 (seq 0 25) (Some 99) <> []
  /\ (length (Views.Paginator.get_page 10%Z (seq 0 25) (Some 99%Z)) <= 10)%nat.
Proof. apply (get_page_never_empty nat (seq 0 25) (Some 99)). discriminate. Defined.

(** ** Creation *)








(** ** Admin actions *)

(** X22: an admin action that marks a selection changes the status of the
    selected sessions, of whatever owner, to the status of the action and
    nothing else of any row; its message counts the selection; and run a
    second time it leaves the table as the first run left it, also when the
    selection depends on the status. *)
Theorem admin_mark_as
    (st what : string) (queryset : SpeechSession -> bool) (db : Store) :
  fst (SpeechSessionAdmin.mark_as st what queryset db)
  = pretty (Z.of_nat (length (List.filter queryset db)))
    +:+ " session(s) marked as " +:+ what +:+ "."
  /\ Forall2 (fun s s' => beside_status s' = beside_status s
                          /\ status s' = if queryset s then st else status s)
             db (snd (SpeechSessionAdmin.mark_as st what queryset db))
  /\ snd (SpeechSessionAdmin.mark_as st what queryset
            (snd (SpeechSessionAdmin.mark_as st what queryset db)))
     = snd (SpeechSessionAdmin.mark_as st what queryset db).
Proof.
  unfold SpeechSessionAdmin.mark_as, QuerySet_update. cbn [fst snd].
  split; [reflexivity|]. split.
  - induction db as [|s db IH]; [constructor|]. cbn [map]. constructor; [|exact IH].
    now destruct (queryset s).
  - rewrite map_map. apply map_ext. intros s.
    destruct (queryset s) eqn:Hs; [|now rewrite Hs].
    now destruct (queryset (assign (Views.status_only st) s)).
Qed.

(** ** The setup script *)

Ltac setup_fails :=
  split; [discriminate|];
  intros (Hpy & Hcmd & Hdj & Hq & Hsu);
  repeat match goal with
         | H : Forall _ (_ :: _) |- _ => inversion H; subst; clear H
         | H : Forall _ (_ ++ _) |- _ => apply Forall_app in H as [? ?]
         end;
  cbn in *; try congruence; try (destruct Hsu; congruence).

(** X23: the setup script ends with status 0 exactly when the interpreter
    is 3.8 or later, every command of the script succeeds, [django.setup()]
    and the query for a superuser do not raise, and a superuser exists or is
    created; it has then run the whole script, each command once, in order. *)
Theorem setup_succeeds_iff (w : Setup.World) :
  (fst (Setup.main w) = Setup.Status 0 <-> setup_ready w)
  /\ (fst (Setup.main w) = Setup.Status 0 -> snd (Setup.main w) = setup_script w).
Proof.
  destruct w as [ok venv dj sq se cs py].
  unfold setup_ready, setup_script, Setup.main, Setup.steps, Setup.setup_environment,
    Setup.setup_database, Setup.create_superuser, Setup.download_spacy_model,
    Setup.and_then, Setup.run_command, Setup.ret.
  cbn [Setup.python_3_8 Setup.venv_exists Setup.command_ok Setup.django_setup_ok
       Setup.superuser_query_ok Setup.superuser_exists Setup.createsuperuser_ok].
  destruct py; cbn [negb]; [|split; [setup_fails|discriminate]].
  destruct venv; cbn [negb Setup.run_steps app].
  - destruct (ok "pip install -r requirements.txt") eqn:H1;
      [|split; [setup_fails|discriminate]].
    destruct dj; [|split; [setup_fails|discriminate]].
    destruct (ok "python manage.py makemigrations") eqn:H2;
      [|split; [setup_fails|discriminate]].
    destruct (ok "python manage.py migrate") eqn:H3;
      [|split; [setup_fails|discriminate]].
    destruct sq; [|split; [setup_fails|discriminate]].
    destruct se.
    + destruct (ok "python -m spacy download en_core_web_sm") eqn:H4;
        [|split; [setup_fails|discriminate]].
      split; [|reflexivity]. split; [|reflexivity]. intros _.
      repeat split; auto; repeat constructor; assumption.
    + destruct cs; [|split; [setup_fails|discriminate]].
      destruct (ok "python -m spacy download en_core_web_sm") eqn:H4;
        [|split; [setup_fails|discriminate]].
      split; [|reflexivity]. split; [|reflexivity]. intros _.
      repeat split; auto; repeat constructor; assumption.
  - destruct (ok "python -m venv venv") eqn:H0;
      [|split; [setup_fails|discriminate]].
    destruct (ok "pip install -r requirements.txt") eqn:H1;
      [|split; [setup_fails|discriminate]].
    destruct dj; [|split; [setup_fails|discriminate]].
    destruct (ok "python manage.py makemigrations") eqn:H2;
      [|split; [setup_fails|discriminate]].
    destruct (ok "python manage.py migrate") eqn:H3;
      [|split; [setup_fails|discriminate]].
    destruct sq; [|split; [setup_fails|discriminate]].
    destruct se.
    + destruct (ok "python -m spacy download en_core_web_sm") eqn:H4;
        [|split; [setup_fails|discriminate]].
      split; [|reflexivity]. split; [|reflexivity]. intros _.
      repeat split; auto; repeat constructor; assumption.
    + destruct cs; [|split; [setup_fails|discriminate]].
      destruct (ok "python -m spacy download en_core_web_sm") eqn:H4;
        [|split; [setup_fails|discriminate]].
      split; [|reflexivity]. split; [|reflexivity]. intros _.
      repeat split; auto; repeat constructor; assumption.
Qed.

Ltac setup_leaf :=
  cbn; split; [eexists; cbn; reflexivity|];
  split; [cbn; repeat constructor; assumption|];
  intros c Hl Hne Hc; cbn in *; subst; try congruence; try reflexivity.

(** X24: whatever the machine is like, the commands the setup script runs
    are a beginning of its script, in order and each at most once; every
    command but the last one run has succeeded, so that no command runs
    after a failed one; and when the last command run has failed the script
    ends with status 1. *)
Theorem setup_runs_in_order (w : Setup.World) :
  (exists rest, setup_script w = snd (Setup.main w) ++ rest)
  /\ Forall (fun c => Setup.command_ok w c = true) (List.removelast (snd (Setup.main w)))
  /\ (forall c, List.last (snd (Setup.main w)) "" = c -> snd (Setup.main w) <> [] ->
        Setup.command_ok w c = false -> fst (Setup.main w) = Setup.Status 1).
Proof.
  destruct w as [ok venv dj sq se cs py].
  unfold setup_script, Setup.main, Setup.steps, Setup.setup_environment,
    Setup.setup_database, Setup.create_superuser, Setup.download_spacy_model,
    Setup.and_then, Setup.run_command, Setup.ret.
  cbn [Setup.python_3_8 Setup.venv_exists Setup.command_ok Setup.django_setup_ok
       Setup.superuser_query_ok Setup.superuser_exists Setup.createsuperuser_ok].
  destruct py; cbn [negb]; [|setup_leaf].
  destruct venv; cbn [negb Setup.run_steps app].
  - destruct (ok "pip install -r requirements.txt") eqn:H1; [|setup_leaf].
    destruct dj; [|setup_leaf].
    destruct (ok "python manage.py makemigrations") eqn:H2; [|setup_leaf].
    destruct (ok "python manage.py migrate") eqn:H3; [|setup_leaf].
    destruct sq; [|setup_leaf].
    destruct se; [|destruct cs; [|setup_leaf]];
      destruct (ok "python -m spacy download en_core_web_sm") eqn:H4; setup_leaf.
  - destruct (ok "python -m venv venv") eqn:H0; [|setup_leaf].
    destruct (ok "pip install -r requirements.txt") eqn:H1; [|setup_leaf].
    destruct dj; [|setup_leaf].
    destruct (ok "python manage.py makemigrations") eqn:H2; [|setup_leaf].
    destruct (ok "python manage.py migrate") eqn:H3; [|setup_leaf].
    destruct sq; [|setup_leaf].
    destruct se; [|destruct cs; [|setup_leaf]];
      destruct (ok "python -m spacy download en_core_web_sm") eqn:H4; setup_leaf.
Qed.

(** ** Derived fields *)

Lemma zero_pad2_length (n : Z) : 0 <= n < 60 -> String.length (zero_pad2 n) = 2%nat.
Proof.
  intros Hn. destruct n as [|p|p]; [reflexivity| |lia].
  repeat (destruct p as [p|p|]; try (exfalso; lia); try reflexivity).
Qed.

(** X25: [duration_minutes] writes the minutes, a colon and the seconds;
    the seconds always take two characters and are those of a number from 0
    to 59 which, added to 60 times the minutes, is the duration, also for a
    duration that is negative. *)
Theorem duration_minutes_shape (s : SpeechSession) :
  exists minutes seconds,
    duration_minutes s = pretty minutes +:+ ":" +:+ zero_pad2 seconds
    /\ String.length (zero_pad2 seconds) = 2%nat
    /\ 0 <= seconds < 60
    /\ duration s = 60 * minutes + seconds.
Proof.
  exists (duration s / 60), (duration s mod 60).
  pose proof (Z.mod_pos_bound (duration s) 60 ltac:(lia)) as Hm.
  split; [reflexivity|]. split; [now apply zero_pad2_length|]. split; [exact Hm|].
  apply Z.div_mod. lia.
Qed.

Example duration_minutes_sample :
  duration_minutes (Sample.session 1 1 0 125 0 "pending") = "2:05"
  /\ duration_minutes (Sample.session 1 1 0 (-5) 0 "pending") = "-1:55".
Proof. split; reflexivity. Qed.

(** ** Gates and answers *)

Section Gates.

Variable hash : string -> Z.
Variable strftime : Z -> string.


(** X27: past the permission gate the detail routes answer with a fixed
    set of status codes: retrieve 200 or 404, update 200, 400 or 404,
    destroy 204 or 404, re-analysis 200, 400 or 404; the object permission
    never turns a request down with 403. *)
Theorem detail_status_codes
    (db : Store) (u : User) (flt : SpeechSession -> bool) (key : Z)
    (partial : bool) (data : SpeechSessionSerializer.Data) (now now' : Z) :
  check_permissions u = None ->
  In (status_code (fst (dispatch u db (retrieve db u flt key, db)))) [200; 404]
  /\ In (status_code (fst (dispatch u db (update db u flt key partial data now))))
        [200; 400; 404]
  /\ In (status_code (fst (dispatch u db (destroy db u flt key)))) [204; 404]
  /\ In (status_code (fst (dispatch u db (reanalyze hash strftime db u flt key now now'))))
        [200; 400; 404].
Proof.
  intros Hg. unfold dispatch, retrieve, update, destroy, reanalyze. rewrite Hg.
  pose proof (get_object_cases db u flt key) as H.
  destruct (get_object db u flt key) as [obj| |]; [| |contradiction].
  - destruct (SpeechSessionSerializer.is_valid partial data), (negb (has_audio obj));
      cbn; auto 10.
  - cbn. auto 10.
Qed.

End Gates.

Lemma detail_status_codes_witness :
  In (status_code
        (fst (dispatch Sample.alice Sample.db
                (retrieve Sample.db Sample.alice Sample.no_backends 1, Sample.db))))
     [200; 404]
  /\ In (status_code
           (fst (dispatch Sample.alice Sample.db
                   (update Sample.db Sample.alice Sample.no_backends 1 true
                      Sample.negative_fillers 9))))
        [200; 400; 404]
  /\ In (status_code
           (fst (dispatch Sample.alice Sample.db
                   (destroy Sample.db Sample.alice Sample.no_backends 1))))
        [204; 404]
  /\ In (status_code
           (fst (dispatch Sample.alice Sample.db
                   (reanalyze (fun _ => 3) (fun _ => "2025-01-01 00:00")
                      Sample.db Sample.alice Sample.no_backends 1 9 10))))
        [200; 400; 404].
Proof.
  apply (detail_status_codes (fun _ => 3) (fun _ => "2025-01-01 00:00")
           Sample.db Sample.alice Sample.no_backends 1 true Sample.negative_fillers 9 10).
  reflexivity.
Defined.

(** ** The session list without filters *)

(** X28: when the filter form does not validate, the list page filters
    nothing: it lists every session of the viewer, latest first; a form
    that validates can only narrow that list.  The three counters of the
    page count all sessions of the viewer, whatever the filters. *)
Theorem session_list_view_unfiltered
    (local_date : Z -> Z) (db : Store) (u : User)
    (filter_form : option Views.FilterData) (page_number : option Z) :
  Views.decorators u = None ->
  Permutation (Views.listed local_date db u None) (owner_sessions db (pk u))
  /\ StronglySorted latest_first (Views.listed local_date db u None)
  /\ (forall s, In s (Views.listed local_date db u filter_form) ->
        In s (Views.listed local_date db u None))
  /\ exists ctx,
       Views.session_list_view local_date db u filter_form page_number
       = (Views.Render "speech_sessions/session_list.html" ctx, db)
       /\ Views.ctx_total_sessions ctx = Z.of_nat (length (owner_sessions db (pk u)))
       /\ Views.ctx_pending_sessions ctx = count_status db (pk u) "pending"
       /\ Views.ctx_analyzed_sessions ctx = count_status db (pk u) "analyzed".
Proof.
  intros Hg.
  assert (Hown : Views.listed local_date db u None
                 = Views.order_by_date_desc (owner_sessions db (pk u))).
  { unfold Views.listed. now rewrite <- get_queryset_owner. }
  assert (Hst : forall st,
             count (qs_filter (fun s => (user s =? pk u) && String.eqb (status s) st) db)
             = count_status db (pk u) st).
  { intros st. unfold count, count_status. do 2 f_equal. apply filter_ext. intros s.
    apply eq_true_iff_eq.
    rewrite andb_true_iff, Z.eqb_eq, String.eqb_eq, bool_decide_eq_true. tauto. }
  split; [rewrite Hown; apply order_by_date_desc_perm|].
  split; [apply order_by_date_desc_sorted|]. split.
  - intros s Hs. unfold Views.listed in *.
    apply (Permutation_in _ (Permutation_sym (order_by_date_desc_perm _))).
    apply (Permutation_in _ (order_by_date_desc_perm _)) in Hs.
    destruct filter_form as [c|]; [|exact Hs].
    rewrite apply_filters_passes in Hs. now apply in_qs_filter in Hs.
  - unfold Views.session_list_view, Views.decorated. rewrite Hg.
    eexists. split; [reflexivity|]. cbn [Views.ctx_total_sessions
      Views.ctx_pending_sessions Views.ctx_analyzed_sessions].
    rewrite !Hst. repeat split.
    fold (get_queryset db u). now rewrite get_queryset_owner.
Qed.

Lemma session_list_view_unfiltered_witness :
  Permutation (Views.listed Sample.utc_date Sample.db Sample.alice None)
              (owner_sessions Sample.db (pk Sample.alice))
  /\ StronglySorted latest_first (Views.listed Sample.utc_date Sample.db Sample.alice None)
  /\ (forall s,
        In s (Views.listed Sample.utc_date Sample.db Sample.alice (Some Sample.pending_only))
        -> In s (Views.listed Sample.utc_date Sample.db Sample.alice None))
  /\ exists ctx,
       Views.session_list_view Sample.utc_date Sample.db Sample.alice
         (Some Sample.pending_only) (Some 1)
       = (Views.Render "speech_sessions/session_list.html" ctx, Sample.db)
       /\ Views.ctx_total_sessions ctx
          = Z.of_nat (length (owner_sessions Sample.db (pk Sample.alice)))
       /\ Views.ctx_pending_sessions ctx = count_status Sample.db (pk Sample.alice) "pending"
       /\ Views.ctx_analyzed_sessions ctx
          = count_status Sample.db (pk Sample.alice) "analyzed".
Proof.
  apply (session_list_view_unfiltered Sample.utc_date Sample.db Sample.alice
           (Some Sample.pending_only) (Some 1)).
  reflexivity.
Defined.
